(** * AllenSDK, [allensdk/brain_observatory/behavior/swdb/behavior_project_cache.py]

    A shallow embedding of the SWDB behaviour project cache:
    - [BehaviorProjectCache]: manifest / metadata loading and its errors;
    - [ExtendedNwbApi]: the task-parameter override, the trial / stimulus
      reconciliation of [get_trials] and the reshaping of
      [get_stimulus_presentations];
    - [ExtendedBehaviorSession]: the lazily evaluated attributes.

    Timestamps are numpy [float64] values and are modelled by Rocq's
    primitive binary64 floats, so that NaN and IEEE comparisons behave as
    they do in the program. *)

From Stdlib Require Import ZArith List Sorted Floats Lia.
From Stdlib Require Import Ascii DecimalString DecimalZ.
From stdpp Require Import gmap strings.

Local Open Scope float_scope.


(** * Part I: the program *)

(** ** Python values, exceptions and fallible results *)

Module Py.

(** The exceptions the modelled code can raise. *)
Inductive exn : Type :=
| FileNotFoundError (path : string)
| JSONDecodeError
| KeyError (key : string)
| IndexError
| TypeError
| ValueError
| OSError
| AssertionError.

(** A call either raises or returns. *)
Definition result (A : Type) : Type := exn + A.

Definition ret {A} (a : A) : result A := inr a.
Definition raise {A} (e : exn) : result A := inl e.
Definition bind {A B} (m : result A) (k : A -> result B) : result B :=
  match m with
  | inl e => inl e
  | inr a => k a
  end.

(** [assert cond]. *)
Definition assert (cond : bool) : result unit :=
  if cond then ret tt else raise AssertionError.

(** Python values as they occur in the JSON documents, the task
    parameters and the cells of a table. *)
#[warnings="-register-all"]
Inductive value : Type :=
| NoneV
| Bool (b : bool)
| Int (z : Z)
| Float (f : float)
| Str (s : string)
| ListV (items : list value)
| Dict (entries : gmap string value).

(** [d[key]] on a dict. *)
Definition getitem (d : gmap string value) (key : string) : result value :=
  match d !! key with
  | Some v => ret v
  | None => raise (KeyError key)
  end.

(** A continuation byte of UTF-8, [10xxxxxx]. *)
Definition is_continuation (c : ascii) : bool :=
  match c with
  | Ascii _ _ _ _ _ _ b6 b7 => b7 && negb b6
  end.

(** The characters of a Python [str], held here as its UTF-8 bytes:
    each character is a leading byte with the continuation bytes that
    follow it. *)
Fixpoint chars (s : string) : list string :=
  match s with
  | EmptyString => []
  | String c rest =>
      let cs := chars rest in
      match rest, cs with
      | String d _, head :: tail =>
          if is_continuation d then String c head :: tail
          else String c EmptyString :: cs
      | _, _ => String c EmptyString :: cs
      end
  end.

(** [str(n)] of an integer. *)
Definition str_int (n : Z) : string :=
  DecimalString.NilZero.string_of_int (Z.to_int n).

(** [v[i]] for a non-negative integer [i]: a character of a string, an
    item of a list, [KeyError] on a dict (whose keys are strings), and
    [TypeError] on what cannot be subscripted. *)
Definition subscript (v : value) (i : nat) : result value :=
  match v with
  | Str s =>
      match nth_error (chars s) i with
      | Some c => ret (Str c)
      | None => raise IndexError
      end
  | ListV items =>
      match nth_error items i with
      | Some item => ret item
      | None => raise IndexError
      end
  | Dict _ => raise (KeyError (str_int (Z.of_nat i)))
  | _ => raise TypeError
  end.

End Py.

Notation "'let*' x ':=' m 'in' k" := (Py.bind m (fun x => k))
  (at level 10, x pattern, m at level 100, k at level 200, only parsing).

(** numpy comparisons on float64. *)
Module F64.

(** [a >= b]. *)
Definition ge (a b : float) : bool := b <=? a.

(** [a > b]. *)
Definition gt (a b : float) : bool := b <? a.

(** [x in values] for a float64 array: [(values == x).any()]. *)
Definition contains (values : list float) (x : float) : bool :=
  existsb (fun v => v =? x) values.

End F64.

(** [pd.isnull] / [notna] on a cell that holds a float or is missing.
    [None] is the missing value ([None], which pandas may store as NaN). *)
Definition isnull (cell : option float) : bool :=
  match cell with
  | None => true
  | Some f => is_nan f
  end.

(** ** [ExtendedNwbApi.get_trials] *)

Module Trials.

(** One row of the trials table, restricted to the columns that
    [get_trials] keeps; [trials_id] is the index label.  [CT] is the type
    of the [change_time] cell: [float] as read from the file, and
    [option float] once [get_next_flash] has been mapped over it. *)
Record trial_row {CT : Type} : Type := TrialRow {
  trials_id : Z;
  initial_image_name : string;
  change_image_name : string;
  change_time : CT;
  lick_times : list float;
  response_latency : float;
  reward_time : float;
  go : bool;
  catch : bool;
  hit : bool;
  miss : bool;
  false_alarm : bool;
  correct_reject : bool;
  aborted : bool;
  auto_rewarded : bool;
  reward_volume : float;
  start_time : float;
  stop_time : float;
  trial_length : float
}.

(** A row of the returned table: the kept columns followed by the two
    derived ones. *)
Record returned_trial : Type := ReturnedTrial {
  columns :> @trial_row (option float);
  reward_rate : float;
  response_binary : bool
}.

(** [trials['change_time'] = ...] on one row. *)
Definition set_change_time {CT CT'} (row : @trial_row CT) (v : CT')
  : @trial_row CT' :=
  TrialRow CT' (trials_id row) (initial_image_name row)
    (change_image_name row) v (lick_times row) (response_latency row)
    (reward_time row) (go row) (catch row) (hit row) (miss row)
    (false_alarm row) (correct_reject row) (aborted row)
    (auto_rewarded row) (reward_volume row) (start_time row)
    (stop_time row) (trial_length row).

(** [trials['response_latency'] = ...] on one row. *)
Definition set_response_latency {CT} (row : @trial_row CT) (v : float)
  : @trial_row CT :=
  TrialRow CT (trials_id row) (initial_image_name row)
    (change_image_name row) (change_time row) (lick_times row) v
    (reward_time row) (go row) (catch row) (hit row) (miss row)
    (false_alarm row) (correct_reject row) (aborted row)
    (auto_rewarded row) (reward_volume row) (start_time row)
    (stop_time row) (trial_length row).

(** A row of the stimulus presentations table as [get_trials] reads it:
    only the [start_time] column is consulted. *)
Record presentation : Type := Presentation {
  stimulus_presentations_id : Z;
  flash_start_time : float
}.

Section GetTrials.

(** What the superclass reads from the NWB file, and the reward-rate
    routine of [trials_processing]; both are external to this file. *)
Variable super_get_trials : list (@trial_row float).
Variable super_get_stimulus_presentations : list presentation.
Variable calculate_reward_rate :
  forall (response_latency starttime : list float)
         (window : float) (trial_window initial_trials : Z), list float.

(** [stimulus_presentations['start_time'].values] *)
Definition start_times (stimulus_presentations : list presentation)
  : list float :=
  map flash_start_time stimulus_presentations.

(** Lines 227-232. *)
Definition get_next_flash (stimulus_presentations : list presentation)
    (timestamp : float) : option float :=
  let query :=
    List.filter (fun p => F64.ge (flash_start_time p) timestamp)
                stimulus_presentations in
  match query with
  | first :: _ => Some (flash_start_time first)
  | [] => None
  end.

(** Lines 244-248.  [len(row['lick_times'] > 0)] is the length of the
    element-wise comparison, hence the number of licks. *)
Definition recalculate_response_latency (row : @trial_row (option float))
  : float :=
  let n := length (map (fun t => F64.gt t 0) (lick_times row)) in
  if negb (Nat.eqb n 0) && negb (isnull (change_time row)) then
    match lick_times row, change_time row with
    | lick0 :: _, Some ct => lick0 - ct
    | _, _ => nan
    end
  else nan.

(** [trials[trials['change_time'].notna()]['change_time']] *)
Definition notna_change_times (trials : list (@trial_row (option float)))
  : list float :=
  flat_map (fun row => match change_time row with
                       | Some ct => if is_nan ct then [] else [ct]
                       | None => []
                       end) trials.

(** Lines 253-254: the loop of assertions. *)
Fixpoint assert_change_times (change_times : list float)
    (stimulus_presentations : list presentation) : Py.result unit :=
  match change_times with
  | [] => Py.ret tt
  | change_time :: rest =>
      let* _ := Py.assert (F64.contains (start_times stimulus_presentations)
                                   change_time) in
      assert_change_times rest stimulus_presentations
  end.

(** [trials['reward_rate'] = <array>]: the array must have one entry per
    row. *)
Fixpoint set_reward_rate (trials : list (@trial_row (option float)))
    (rates : list float) : Py.result (list (@trial_row (option float) * float)) :=
  match trials, rates with
  | [], [] => Py.ret []
  | row :: trials', rate :: rates' =>
      let* rest := set_reward_rate trials' rates' in
      Py.ret ((row, rate) :: rest)
  | _, _ => Py.raise Py.ValueError
  end.

(** Lines 217-296. *)
Definition get_trials (filter_aborted_trials : bool)
  : Py.result (list returned_trial) :=
  let trials := super_get_trials in
  let stimulus_presentations := super_get_stimulus_presentations in
  (* line 233 *)
  let trials :=
    map (fun row => set_change_time row
           (get_next_flash stimulus_presentations (change_time row)))
        trials in
  (* line 240: [iloc[-1]] raises on an empty table *)
  let* last_row := match last stimulus_presentations with
              | Some p => Py.ret p
              | None => Py.raise Py.IndexError
              end in
  let last_stimulus_presentation := flash_start_time last_row in
  (* line 241 *)
  let trials :=
    List.filter
      (fun row => negb (F64.gt (stop_time row) last_stimulus_presentation))
      trials in
  (* line 249: on a table without rows [apply] gives a table, which
     cannot be stored as one column *)
  let* _ := match trials with
            | [] => Py.raise Py.ValueError
            | _ :: _ => Py.ret tt
            end in
  let trials :=
    map (fun row => set_response_latency row
           (recalculate_response_latency row)) trials in
  (* lines 253-254 *)
  let* _ := assert_change_times (notna_change_times trials)
         stimulus_presentations in
  (* lines 257-258 *)
  let trials :=
    if filter_aborted_trials
    then List.filter (fun row => negb (aborted row)) trials
    else trials in
  (* lines 283-289 *)
  let* rated := set_reward_rate trials
             (calculate_reward_rate (map response_latency trials)
                (map start_time trials) 0.75 25 10) in
  (* lines 292-294 *)
  Py.ret (map (fun '(row, rate) =>
                 ReturnedTrial row rate (orb (hit row) (false_alarm row)))
              rated).

End GetTrials.

End Trials.

(** ** Tables *)

Module Frame.
Import Py.

(** A pandas [DataFrame]: a named index and labelled columns, in order.
    Column labels are unique within a table, as they are in the tables
    read from the NWB, HDF5 and CSV files. *)
Record DataFrame : Type := mkDataFrame {
  index_name : option string;
  index : list Z;
  columns : list (string * list value)
}.

Definition column_names (df : DataFrame) : list string :=
  map fst (columns df).

Definition has_column (name : string) (df : DataFrame) : bool :=
  existsb (String.eqb name) (column_names df).

(** The cells of the column labelled [name]. *)
Fixpoint lookup_column (name : string) (cols : list (string * list value))
  : option (list value) :=
  match cols with
  | [] => None
  | (label, cells) :: rest =>
      if String.eqb label name then Some cells else lookup_column name rest
  end.

(** The listed columns, in the listed order, when all are present. *)
Fixpoint select (names : list string) (cols : list (string * list value))
  : option (list (string * list value)) :=
  match names with
  | [] => Some []
  | name :: rest =>
      match lookup_column name cols, select rest cols with
      | Some cells, Some tail => Some ((name, cells) :: tail)
      | _, _ => None
      end
  end.

(** [repr] of a label without quotes or escapes, and the labels
    separated by [sep] between brackets. *)
Definition repr_label (label : string) : string :=
  "'" +:+ label +:+ "'".

Fixpoint sep_by (sep : string) (items : list string) : string :=
  match items with
  | [] => ""
  | [item] => item
  | item :: rest => item +:+ sep +:+ sep_by sep rest
  end.

Definition bracketed (sep : string) (labels : list string) : string :=
  "[" +:+ sep_by sep (map repr_label labels) +:+ "]".

(** The labels of [names] that [df] lacks, each once. *)
Fixpoint once (labels : list string) : list string :=
  match labels with
  | [] => []
  | label :: rest =>
      label :: List.filter (fun l => negb (String.eqb l label)) (once rest)
  end.

Definition missing_labels (names : list string) (df : DataFrame)
  : list string :=
  once (List.filter (fun name => negb (has_column name df)) names).

(** The argument of the [KeyError] of [df[[name, ...]]], as pandas 1.x
    words it (a label list long enough to be wrapped over several lines
    is written here on one). *)
Definition not_in_index (names : list string) (df : DataFrame) : string :=
  if forallb (fun name => negb (has_column name df)) names
  then "None of [Index(" +:+ bracketed ", " names
         +:+ ", dtype='object')] are in the [columns]"
  else bracketed ", " (missing_labels names df) +:+ " not in index".

(** [df[[name, ...]]]: the listed columns, in the listed order. *)
Definition getitem_columns (names : list string) (df : DataFrame)
  : result DataFrame :=
  match select names (columns df) with
  | Some cols => ret (mkDataFrame (index_name df) (index df) cols)
  | None => raise (KeyError (not_in_index names df))
  end.

(** [df.drop(columns=[name, ...])]: every label must be present; the
    [KeyError] names the absent ones as pandas 1.x prints them. *)
Definition drop (names : list string) (df : DataFrame) : result DataFrame :=
  match List.filter (fun name => negb (has_column name df)) names with
  | missing :: more =>
      raise (KeyError (bracketed " " (missing :: more)
                         +:+ " not found in axis"))
  | [] =>
      ret (mkDataFrame (index_name df) (index df)
             (List.filter
                (fun col => negb (existsb (String.eqb (fst col)) names))
                (columns df)))
  end.

Fixpoint position (label : Z) (labels : list Z) : option nat :=
  match labels with
  | [] => None
  | l :: rest =>
      if Z.eqb l label then Some O else option_map S (position label rest)
  end.

(** [float(z)], rounded to the nearest binary64. *)
Definition float_of_int (z : Z) : float :=
  SF2Prim (binary_normalize prec emax z 0 false).

(** A column of integers becomes a column of floats when a missing cell
    has to be stored in it. *)
Definition upcast (cells : list value) : list value :=
  if forallb (fun v => match v with Int _ => true | _ => false end) cells
  then map (fun v => match v with
                     | Int z => Float (float_of_int z)
                     | _ => v
                     end) cells
  else cells.

(** The cells of a right-hand column brought to the left-hand index;
    a label the right-hand table lacks gives NaN. *)
Definition reindex (left_index right_index : list Z) (cells : list value)
  : list value :=
  let cells :=
    if forallb (fun label => bool_decide (is_Some (position label right_index)))
               left_index
    then cells else upcast cells in
  map (fun label =>
         match position label right_index with
         | Some i => nth i cells (Float nan)
         | None => Float nan
         end) left_index.

(** [left.join(right)]: a left join on the index, the right-hand index
    holding each label once; overlapping column labels are refused. *)
Definition join (left right : DataFrame) : result DataFrame :=
  if existsb (fun name => has_column name right) (column_names left)
  then raise ValueError
  else ret (mkDataFrame (index_name left) (index left)
              (columns left ++
               map (fun col =>
                      (fst col, reindex (index left) (index right) (snd col)))
                   (columns right))).

(** [df.rename(columns=mapper)] *)
Definition rename (mapper : gmap string string) (df : DataFrame)
  : DataFrame :=
  mkDataFrame (index_name df) (index df)
    (map (fun col => (default (fst col) (mapper !! fst col), snd col))
         (columns df)).

(** [df[name] = scalar] *)
Definition setitem_scalar (name : string) (v : value) (df : DataFrame)
  : DataFrame :=
  let cells := map (fun _ => v) (index df) in
  mkDataFrame (index_name df) (index df)
    (if has_column name df
     then map (fun col => if String.eqb (fst col) name
                          then (fst col, cells) else col) (columns df)
     else columns df ++ [(name, cells)]).

(** [df.index.rename(name, inplace=True)] *)
Definition rename_index (name : string) (df : DataFrame) : DataFrame :=
  mkDataFrame (Some name) (index df) (columns df).

End Frame.

(** ** [ExtendedNwbApi]: task parameters and stimulus presentations *)

Module NwbApi.
Import Py Frame.

Section Api.

(** The reads of the superclass [BehaviorOphysNwbApi] and of
    [pd.read_hdf(path, key='df')], which are external. *)
Variable super_get_task_parameters : result (gmap string value).
Variable super_get_stimulus_presentations : result DataFrame.
Variable read_hdf : string -> result DataFrame.
Variable extended_stimulus_presentations_df_path : string.

(** Lines 176-177. *)
Definition get_extended_stimulus_presentations_df : result DataFrame :=
  read_hdf extended_stimulus_presentations_df_path.

(** Lines 179-188. *)
#[warnings="-inexact-float"]
Definition get_task_parameters : result (gmap string value) :=
  let* task_parameters := super_get_task_parameters in
  let task_parameters :=
    <["omitted_flash_fraction" := Float 0.05]> task_parameters in
  let task_parameters :=
    <["stimulus_duration_sec" := Float 0.25]> task_parameters in
  ret task_parameters.

(** Lines 305-324. *)
Definition presentation_columns : list string :=
  ["image_name"; "image_index"; "start_time"; "stop_time"; "omitted";
   "change"; "duration"; "licks"; "rewards"; "running_speed"; "index";
   "time_from_last_lick"; "time_from_last_reward"; "time_from_last_change";
   "block_index"; "image_block_repetition"; "repeat_within_block";
   "image_set"].

(** Lines 298-334. *)
Definition get_stimulus_presentations : result DataFrame :=
  let* stimulus_presentations := super_get_stimulus_presentations in
  let* extended_stimulus_presentations :=
    get_extended_stimulus_presentations_df in
  let* extended_stimulus_presentations :=
    drop ["omitted"] extended_stimulus_presentations in
  let* stimulus_presentations :=
    join stimulus_presentations extended_stimulus_presentations in
  let* stimulus_presentations :=
    getitem_columns presentation_columns stimulus_presentations in
  let stimulus_presentations :=
    rename {["index" := "absolute_flash_number";
             "running_speed" := "mean_running_speed"]}
           stimulus_presentations in
  let* task_parameters := get_task_parameters in
  let* stage := getitem task_parameters "stage" in
  let* image_set := subscript stage 15 in
  let stimulus_presentations :=
    setitem_scalar "image_set" image_set stimulus_presentations in
  let stimulus_presentations :=
    rename_index "flash_id" stimulus_presentations in
  ret stimulus_presentations.

End Api.

End NwbApi.

(** ** [BehaviorProjectCache] *)

Module Cache.
Import Py Frame.

(** The file system and the console.  [opened] records every path handed
    to [open], in order. *)
Record world : Type := World {
  files : gmap string string;
  opened : list string;
  stdout : list string
}.

(** A call reads and changes the world, and raises or returns. *)
Definition IO (A : Type) : Type := world -> result A * world.

Definition io_ret {A} (a : A) : IO A := fun w => (inr a, w).
Definition io_raise {A} (e : exn) : IO A := fun w => (inl e, w).
Definition io_bind {A B} (m : IO A) (k : A -> IO B) : IO B :=
  fun w =>
    match m w with
    | (inl e, w') => (inl e, w')
    | (inr a, w') => k a w'
    end.
Definition lift {A} (r : result A) : IO A := fun w => (r, w).

Notation "'do*' x ':=' m 'in' k" := (io_bind m (fun x => k))
  (at level 10, x pattern, m at level 100, k at level 200, only parsing).

(** The world after an attempt to open [path]. *)
Definition tried (path : string) (w : world) : world :=
  World (files w) (opened w ++ [path]) (stdout w).

(** [open(path, 'r')], read to the end. *)
Definition open_ (path : string) : IO string :=
  fun w =>
    match files w !! path with
    | Some text => (inr text, tried path w)
    | None => (inl (FileNotFoundError path), tried path w)
    end.

(** [print(line)] *)
Definition print (line : string) : IO unit :=
  fun w => (inr tt, World (files w) (opened w) (stdout w ++ [line])).

(** The attributes [__init__] sets. *)
Record BehaviorProjectCache : Type := mkCache {
  manifest : DataFrame;
  nwb_base_dir : value;
  analysis_files_base_dir : value;
  analysis_files_metadata : value
}.

(** Lines 62-73. *)
Definition manifest_columns : list string :=
  ["ophys_experiment_id"; "container_id"; "full_genotype"; "imaging_depth";
   "targeted_structure"; "stage_name"; "animal_name"; "sex";
   "date_of_acquisition"; "retake_number"].

(** Line 80. *)
Definition warning : string :=
  "Warning! No metadata supplied for analysis files. Set analysis_files_metadata_path to point at the json file containing the metadata".

Section Loaders.

(** The parsers of [json] and pandas, applied to the text of a file. *)
Variable json_load : string -> result value.
Variable read_csv : string -> result DataFrame.

(** Line 14: [pd.read_csv(path, index_col='Unnamed: 0')]; pandas
    refuses a path that is not a string with [ValueError]. *)
Definition csv_reader (path : value) : IO DataFrame :=
  match path with
  | Str path =>
      do* text := open_ path in
      lift (read_csv text)
  | _ => io_raise ValueError
  end.

(** Lines 83-86. *)
Definition get_analysis_files_metadata (path : string) : IO value :=
  do* text := open_ path in
  do* metadata := lift (json_load text) in
  io_ret metadata.

(** Lines 61-75: the manifest and the two directories. *)
Definition init_manifest (cache_paths : gmap string value)
  : IO (DataFrame * value * value) :=
  do* manifest_path := lift (getitem cache_paths "manifest_path") in
  do* manifest := csv_reader manifest_path in
  do* manifest := lift (getitem_columns manifest_columns manifest) in
  do* nwb_base_dir := lift (getitem cache_paths "nwb_base_dir") in
  do* analysis_files_base_dir :=
    lift (getitem cache_paths "analysis_files_base_dir") in
  io_ret (manifest, nwb_base_dir, analysis_files_base_dir).

(** Lines 26-81, [__init__].  [open] takes a string as a path and an
    integer as a file descriptor, none of which is open for reading
    here. *)
Definition init (cache_paths : gmap string value) : IO BehaviorProjectCache :=
  do* (manifest, nwb_base_dir, analysis_files_base_dir) :=
    init_manifest cache_paths in
  match cache_paths !! "analysis_files_metadata_path" with
  | Some path =>
      do* metadata :=
        match path with
        | Str path => get_analysis_files_metadata path
        | Int _ | Bool _ => io_raise OSError
        | _ => io_raise TypeError
        end in
      io_ret (mkCache manifest nwb_base_dir analysis_files_base_dir metadata)
  | None =>
      do* _ := print warning in
      io_ret (mkCache manifest nwb_base_dir analysis_files_base_dir NoneV)
  end.

(** Lines 138-145.  Subscripting a document that is not an object
    raises [TypeError] at line 61. *)
Definition from_json (json_path : string) : IO BehaviorProjectCache :=
  do* text := open_ json_path in
  do* cache_json := lift (json_load text) in
  match cache_json with
  | Dict cache_paths => init cache_paths
  | _ => io_raise TypeError
  end.

End Loaders.

End Cache.

(** ** [ExtendedBehaviorSession] *)

Module Session.

(** The attributes [__init__] adds (lines 426-428). *)
Inductive attribute : Type :=
| trial_response_df
| flash_response_df
| image_index.

Definition attribute_eqb (a b : attribute) : bool :=
  match a, b with
  | trial_response_df, trial_response_df
  | flash_response_df, flash_response_df
  | image_index, image_index => true
  | _, _ => false
  end.

Section Lazy.

(** [W] is the state of the files a loader reads, [V] the tables it
    builds.  A Python value is [Some v] or, for [None], [None]. *)
Variable W : Type.
Variable V : Type.

(** Modelled from the spec: the class [LazyProperty] of
    [allensdk.core.lazy_property] and the attribute lookup of
    [LazyPropertyMixin] are not in this file.  The specification calls
    the session "a lazily-memoized facade object": a property holds its
    loader and the value kept for reuse, which is Python's [None] until
    a loader result is kept; a read with nothing kept calls the loader
    and keeps what it returns; a read with a value kept returns it.
    [calls] counts the calls of the loader. *)
Record LazyProperty : Type := mkLazy {
  api_method : W -> option V;
  value : option V;
  calls : nat
}.

(** Modelled from the spec: [LazyProperty(loader)] keeps the loader and
    calls nothing. *)
Definition new_lazy (loader : W -> option V) : LazyProperty :=
  mkLazy loader None 0.

(** Modelled from the spec: reading a lazy attribute while the files
    are in state [w]. *)
Definition lazy_get (p : LazyProperty) (w : W) : option V * LazyProperty :=
  match value p with
  | Some v => (Some v, p)
  | None =>
      let v := api_method p w in
      (v, mkLazy (api_method p) v (S (calls p)))
  end.

(** The two loaders of the api object return tables. *)
Variable get_trial_response_df : W -> V.
Variable get_flash_response_df : W -> V.

(** Lines 431-433: the grouped image names, computed by pandas. *)
Variable image_index_names : W -> V.

(** Lines 430-433: the function computes [image_index_names] and ends
    without a [return] statement, so the call gives [None]. *)
Definition get_image_index (w : W) : option V :=
  let image_index_names := image_index_names w in
  None.

Definition ExtendedBehaviorSession : Type := attribute -> LazyProperty.

Definition loader (a : attribute) : W -> option V :=
  match a with
  | trial_response_df => fun w => Some (get_trial_response_df w)
  | flash_response_df => fun w => Some (get_flash_response_df w)
  | image_index => get_image_index
  end.

(** Lines 421-428. *)
Definition init : ExtendedBehaviorSession :=
  fun a => new_lazy (loader a).

(** [session.<a>], read while the files are in state [w]. *)
Definition getattr (session : ExtendedBehaviorSession) (a : attribute)
    (w : W) : option V * ExtendedBehaviorSession :=
  let '(v, p) := lazy_get (session a) w in
  (v, fun b => if attribute_eqb b a then p else session b).

(** A sequence of attribute reads, each at its own state of the files. *)
Fixpoint read_all (session : ExtendedBehaviorSession)
    (reads : list (attribute * W))
  : list (option V) * ExtendedBehaviorSession :=
  match reads with
  | [] => ([], session)
  | (a, w) :: rest =>
      let '(v, session) := getattr session a w in
      let '(vs, session) := read_all session rest in
      (v :: vs, session)
  end.

(** The state of the files at the first read of [a]. *)
Fixpoint first_read (a : attribute) (reads : list (attribute * W))
  : option W :=
  match reads with
  | [] => None
  | (b, w) :: rest => if attribute_eqb b a then Some w else first_read a rest
  end.

(** The number of reads of [a]. *)
Definition reads_of (a : attribute) (reads : list (attribute * W)) : nat :=
  length (List.filter (fun r => attribute_eqb (fst r) a) reads).

End Lazy.

Arguments mkLazy {W V}.
Arguments api_method {W V}.
Arguments value {W V}.
Arguments calls {W V}.
Arguments new_lazy {W V}.
Arguments lazy_get {W V}.
Arguments loader {W V}.
Arguments init {W V}.
Arguments get_image_index {W V}.
Arguments getattr {W V}.
Arguments read_all {W V}.
Arguments first_read {W}.
Arguments reads_of {W}.

End Session.

(** ** Paths, sessions and containers of [BehaviorProjectCache] *)

Module Posix.

Definition sep : ascii := "/"%char.

Definition startswith_sep (s : string) : bool :=
  match s with
  | String c _ => Ascii.eqb c sep
  | EmptyString => false
  end.

Fixpoint endswith_sep (s : string) : bool :=
  match s with
  | EmptyString => false
  | String c EmptyString => Ascii.eqb c sep
  | String _ rest => endswith_sep rest
  end.

(** [os.path.join(a, b)] of [posixpath]: an absolute [b] replaces [a];
    otherwise [b] is appended, after a separator unless [a] is empty or
    already ends with one. *)
Definition join (a b : string) : string :=
  if startswith_sep b then b
  else if String.eqb a "" || endswith_sep a then a +:+ b
  else a +:+ String sep b.

End Posix.

Module Catalog.
Import Py.

(** [str(n)] of an integer, as ['{}'.format(n)] prints it. *)
Definition str_int (n : Z) : string :=
  DecimalString.NilZero.string_of_int (Z.to_int n).

(** A row of the manifest, in the columns the methods below read:
    the two identifiers are integers and the stage name is a string. *)
Record manifest_row : Type := ManifestRow {
  ophys_experiment_id : Z;
  container_id : Z;
  stage_name : string
}.

(** The attributes of a constructed cache that the methods below read;
    the two directories are strings. *)
Record project_cache : Type := ProjectCache {
  manifest : list manifest_row;
  nwb_base_dir : string;
  analysis_files_base_dir : string
}.

(** What [ExtendedNwbApi.__init__] stores (lines 149-157); the session
    of [get_session] is built from it alone. *)
Record ExtendedNwbApi : Type := mkApi {
  path : string;
  trial_response_df_path : string;
  flash_response_df_path : string;
  extended_stimulus_presentations_df_path : string
}.

(** Lines 88-92. *)
Definition get_nwb_filepath (self : project_cache) (experiment_id : Z)
  : string :=
  Posix.join (nwb_base_dir self)
    ("behavior_ophys_session_" +:+ str_int experiment_id +:+ ".nwb").

(** Lines 94-98. *)
Definition get_trial_response_df_path (self : project_cache)
    (experiment_id : Z) : string :=
  Posix.join (analysis_files_base_dir self)
    ("trial_response_df_" +:+ str_int experiment_id +:+ ".h5").

(** Lines 100-104. *)
Definition get_flash_response_df_path (self : project_cache)
    (experiment_id : Z) : string :=
  Posix.join (analysis_files_base_dir self)
    ("flash_response_df_" +:+ str_int experiment_id +:+ ".h5").

(** Lines 106-110. *)
Definition get_extended_stimulus_presentations_df (self : project_cache)
    (experiment_id : Z) : string :=
  Posix.join (analysis_files_base_dir self)
    ("extended_stimulus_presentations_df_" +:+ str_int experiment_id
       +:+ ".h5").

(** Lines 112-127. *)
Definition get_session (self : project_cache) (experiment_id : Z)
  : ExtendedNwbApi :=
  let nwb_path := get_nwb_filepath self experiment_id in
  let trial_response_df_path :=
    get_trial_response_df_path self experiment_id in
  let flash_response_df_path :=
    get_flash_response_df_path self experiment_id in
  let extended_stim_df_path :=
    get_extended_stimulus_presentations_df self experiment_id in
  mkApi nwb_path trial_response_df_path flash_response_df_path
    extended_stim_df_path.

(** Lines 129-136.  [get_group] raises [KeyError] for a container
    without rows; the loop updates the dict row by row. *)
Definition get_container_sessions (self : project_cache) (container : Z)
  : result (gmap string ExtendedNwbApi) :=
  match List.filter (fun row => Z.eqb (container_id row) container)
                    (manifest self) with
  | [] => raise (KeyError (str_int container))
  | container_manifest =>
      ret (fold_left
             (fun container_stages row =>
                <[stage_name row :=
                    get_session self (ophys_experiment_id row)]>
                  container_stages)
             container_manifest ∅)
  end.

End Catalog.

(** ** [ExtendedNwbApi]: metadata, licks, traces and the mask image *)

Module NwbMisc.
Import Py Frame.

(** [d.pop(key)] *)
Definition pop (d : gmap string value) (key : string)
  : result (value * gmap string value) :=
  match d !! key with
  | Some v => ret (v, delete key d)
  | None => raise (KeyError key)
  end.

Section Metadata.

Variable super_get_metadata : result (gmap string value).
Variable super_get_task_parameters : result (gmap string value).

(** Lines 190-207. *)
Definition get_metadata : result (gmap string value) :=
  let* metadata := super_get_metadata in
  let* task_parameters :=
    NwbApi.get_task_parameters super_get_task_parameters in
  let* stage := getitem task_parameters "stage" in
  let metadata := <["stage" := stage]> metadata in
  let* popped := pop metadata "session_type" in
  let metadata := snd popped in
  let* popped := pop metadata "behavior_session_uuid" in
  let metadata := snd popped in
  let* popped := pop metadata "LabTracks_ID" in
  let metadata := <["mouse_id" := fst popped]> (snd popped) in
  ret metadata.

End Metadata.

(** Lines 353-357. *)
Definition get_licks (super_get_licks : result DataFrame)
  : result DataFrame :=
  let* licks := super_get_licks in
  let licks := rename {["time" := "timestamps"]} licks in
  ret licks.

(** Lines 366-371. *)
Definition get_dff_traces (super_get_dff_traces : result DataFrame)
  : result DataFrame :=
  let* dff_traces := super_get_dff_traces in
  let* dff_traces := drop ["cell_roi_id"] dff_traces in
  ret dff_traces.

Section Mask.

(** The serialized image and the two functions of [ImageApi], which are
    external; an image is its pixel rows, its spacing and its unit. *)
Variable itk_image : Type.
Variable spacing_t : Type.
Variable unit_t : Type.

Record Image : Type := mkImage {
  data : list (list float);
  spacing : spacing_t;
  unit : unit_t
}.

Variable deserialize : itk_image -> Image.
Variable serialize : list (list float) -> spacing_t -> unit_t -> itk_image.

(** Line 347, [data[data > 0] = 1], on the pixel rows. *)
Definition binarize (pixels : list (list float)) : list (list float) :=
  map (map (fun x => if F64.gt x 0 then 1 else x)) pixels.

(** Lines 341-351. *)
Definition get_segmentation_mask_image
    (super_get_segmentation_mask_image : itk_image) : itk_image :=
  let segmentation_mask_itk := super_get_segmentation_mask_image in
  let segmentation_mask_image := deserialize segmentation_mask_itk in
  let segmentation_mask_image :=
    mkImage (binarize (data segmentation_mask_image))
            (spacing segmentation_mask_image)
            (unit segmentation_mask_image) in
  serialize (data segmentation_mask_image)
            (spacing segmentation_mask_image)
            (unit segmentation_mask_image).

End Mask.

Arguments mkImage {spacing_t unit_t}.
Arguments data {spacing_t unit_t}.
Arguments spacing {spacing_t unit_t}.
Arguments unit {spacing_t unit_t}.
Arguments get_segmentation_mask_image {itk_image spacing_t unit_t}.

End NwbMisc.

(** ** Sample sessions *)

Module Samples.
Import Trials.

Definition sample_trial (id : Z) (change_time : float)
    (lick_times : list float) (hit false_alarm aborted : bool)
    (start_time stop_time : float) : @trial_row float :=
  TrialRow float id "im065" "im077" change_time lick_times nan nan
    (negb aborted) false hit false false_alarm false aborted false 0
    start_time stop_time (stop_time - start_time).

(** A stand-in for the reward-rate routine: one entry per trial. *)
Definition flat_reward_rate (response_latency starttime : list float)
    (window : float) (trial_window initial_trials : Z) : list float :=
  map (fun _ => infinity) response_latency.

(** Four flashes in time order. *)
Definition flashes : list presentation :=
  [Presentation 0 0.75; Presentation 1 1.5; Presentation 2 2.25;
   Presentation 3 3].

(** A hit, an aborted trial without change time, a false alarm without
    licks, and a trial that outlasts the last flash. *)
Definition session_trials : list (@trial_row float) :=
  [sample_trial 0 1.4375 [1.875; 2] true false false 0.5 2.125;
   sample_trial 1 nan [2.5] false false true 2.125 2.625;
   sample_trial 2 2.75 [] false true false 2.625 3;
   sample_trial 3 3.5 [3.75] true false false 3 4.5].

Definition session_returned : list returned_trial :=
  Eval vm_compute in
    match get_trials session_trials flashes flat_reward_rate true with
    | inr out => out
    | inl _ => []
    end.



(** A trial whose stop time was not recorded. *)
Definition open_ended_trial : @trial_row float :=
  sample_trial 0 0.5 [1.25] true false false 0 nan.

End Samples.

(** A two-flash session for [get_stimulus_presentations]. *)
Module TableSamples.
Import Py Frame.

Definition base_presentations : DataFrame :=
  mkDataFrame (Some "stimulus_presentations_id") [0; 1]%Z
    [("duration", [Float 0.25; Float 0.25]);
     ("end_frame", [Int 15; Int 60]);
     ("image_index", [Int 0; Int 8]);
     ("image_name", [Str "im065"; Str "omitted"]);
     ("image_set", [Str "Natural_Images_Lum_Matched_set_ophys_6_2017.07.14";
                    Str "Natural_Images_Lum_Matched_set_ophys_6_2017.07.14"]);
     ("index", [Int 0; Int 1]);
     ("omitted", [Bool false; Bool true]);
     ("start_frame", [Int 0; Int 45]);
     ("start_time", [Float 0.75; Float 1.5]);
     ("stop_time", [Float 1; Float 1.75])].

Definition extended_presentations : DataFrame :=
  mkDataFrame (Some "stimulus_presentations_id") [0; 1]%Z
    [("omitted", [Bool true; Bool false]);
     ("change", [Bool false; Bool false]);
     ("licks", [ListV []; ListV [Float 1.625]]);
     ("rewards", [ListV []; ListV []]);
     ("running_speed", [Float 2.5; Float 3.5]);
     ("time_from_last_lick", [Float nan; Float nan]);
     ("time_from_last_reward", [Float nan; Float nan]);
     ("time_from_last_change", [Float nan; Float nan]);
     ("block_index", [Int 0; Int 0]);
     ("image_block_repetition", [Int 0; Int 1]);
     ("repeat_within_block", [Int 0; Int 1])].

#[warnings="-inexact-float"]
Definition task_parameters : gmap string value :=
  {["stage" := Str "OPHYS_6_images_B";
    "omitted_flash_fraction" := Float nan;
    "stimulus_duration_sec" := Float 6;
    "reward_volume" := Float 0.007]}.

Definition hdf_store (path : string) : result DataFrame :=
  if String.eqb path "extended_stimulus_presentations_df_880961028.h5"
  then ret extended_presentations
  else raise (FileNotFoundError path).

Definition reshaped_presentations : DataFrame :=
  Eval vm_compute in
    match NwbApi.get_stimulus_presentations (inr task_parameters)
            (inr base_presentations) hdf_store
            "extended_stimulus_presentations_df_880961028.h5" with
    | inr df => df
    | inl _ => mkDataFrame None [] []
    end.

End TableSamples.


(** A small cache directory. *)
Module CacheSamples.
Import Py Frame Cache.

Definition manifest_table : DataFrame :=
  mkDataFrame None [0]%Z
    [("ophys_experiment_id", [Int 880961028]);
     ("container_id", [Int 876693136]);
     ("full_genotype", [Str "Vip-IRES-Cre/wt;Ai148(TIT2L-GC6f-ICL-tTA2)/wt"]);
     ("imaging_depth", [Int 175]);
     ("targeted_structure", [Str "VISp"]);
     ("stage_name", [Str "OPHYS_6_images_B"]);
     ("animal_name", [Int 449653]);
     ("sex", [Str "M"]);
     ("date_of_acquisition", [Str "2019-06-05"]);
     ("retake_number", [Int 0]);
     ("in_bad_cell_matching_list", [Bool false])].

(** Stand-ins for the two parsers: each knows the documents of this
    directory. *)
Definition parse_json (text : string) : result value :=
  if String.eqb text "paths without metadata"
  then ret (Dict {["manifest_path" := Str "manifest.csv";
                   "nwb_base_dir" := Str "nwb_files";
                   "analysis_files_base_dir" := Str "analysis_files"]})
  else if String.eqb text "empty object" then ret (Dict ∅)
  else raise JSONDecodeError.

Definition parse_csv (text : string) : result DataFrame :=
  if String.eqb text "manifest rows" then ret manifest_table
  else raise ValueError.

Definition disk : world :=
  World {["cache_paths.json" := "paths without metadata";
          "manifest.csv" := "manifest rows"]} [] [].

End CacheSamples.

(** A manifest with two containers; the first one has a retake of
    its stage [OPHYS_6_images_B]. *)
Module CatalogSamples.
Import Catalog.

Definition swdb_cache : project_cache :=
  ProjectCache
    [ManifestRow 880961028 876693136 "OPHYS_6_images_B";
     ManifestRow 878363070 876693136 "OPHYS_4_images_B";
     ManifestRow 873968820 791352433 "OPHYS_1_images_A";
     ManifestRow 881094781 876693136 "OPHYS_6_images_B"]
    "/data/nwb_files" "/data/analysis_files/".

End CatalogSamples.

(** Metadata and task parameters as the superclass returns them. *)
Module MetadataSamples.
Import Py.

Definition nwb_metadata : gmap string value :=
  {["LabTracks_ID" := Int 449653;
    "session_type" := Str "Unknown";
    "behavior_session_uuid" := Str "3a4b";
    "ophys_frame_rate" := Float 31;
    "stage" := Str "stale"]}.

Definition nwb_task_parameters : gmap string value :=
  {["stage" := Str "OPHYS_6_images_B";
    "stimulus_duration_sec" := Float 6]}.

End MetadataSamples.

(** * Part II: properties *)

(** ** IEEE comparison facts used by the reconciliation proofs *)


Module F64Facts.
Import F64.

Lemma SFcompare_refl s :
  s <> S754_nan -> SFcompare s s = Some Eq.
Proof.
  destruct s as [sg| sg | |sg m e]; simpl; intros Hs; try congruence.
  - destruct sg; reflexivity.
  - destruct sg; rewrite Z.compare_refl;
      change (Pos.compare_cont Eq m m) with (Pos.compare m m);
      rewrite Pos.compare_refl; reflexivity.
Qed.

Lemma SFcompare_antisym s t c :
  SFcompare s t = Some c -> SFcompare t s = Some (CompOpp c).
Proof.
  destruct s as [sg| sg | |sg m e], t as [tg| tg | |tg n f]; simpl;
    intros H; try discriminate; injection H as <-;
    try (destruct sg; reflexivity); try (destruct tg; reflexivity);
    try (destruct sg, tg; reflexivity).
  f_equal.
  change (Pos.compare_cont Eq m n) with (Pos.compare m n).
  change (Pos.compare_cont Eq n m) with (Pos.compare n m).
  rewrite (Z.compare_antisym e f), (Pos.compare_antisym m n).
  destruct sg, tg; simpl; try reflexivity;
    destruct (e ?= f)%Z; simpl; try reflexivity;
    destruct (m ?= n)%positive; reflexivity.
Qed.

Lemma SFcompare_nan_r s : SFcompare s S754_nan = None.
Proof. destruct s; reflexivity. Qed.

(** A value that compares [>=] to anything is not NaN. *)
Lemma leb_not_nan_r a x : (a <=? x) = true -> is_nan x = false.
Proof.
  unfold is_nan. rewrite FloatAxioms.leb_spec, FloatAxioms.eqb_spec. unfold SFleb, SFeqb.
  intros H.
  destruct (Prim2SF x) eqn:Hx;
    try (rewrite SFcompare_refl by congruence; reflexivity).
  rewrite SFcompare_nan_r in H. discriminate.
Qed.

Lemma eqb_refl x : is_nan x = false -> (x =? x) = true.
Proof. unfold is_nan. destruct (x =? x); simpl; congruence. Qed.


Lemma is_nan_spec x : is_nan x = true <-> Prim2SF x = S754_nan.
Proof.
  unfold is_nan. rewrite FloatAxioms.eqb_spec. unfold SFeqb. split.
  - destruct (Prim2SF x) eqn:Hx; try reflexivity;
      rewrite SFcompare_refl by congruence; discriminate.
  - intros ->. reflexivity.
Qed.

(** Away from NaN, "not greater" is "less or equal". *)
Lemma not_gt_leb a b :
  is_nan a = false -> is_nan b = false -> gt a b = false -> (a <=? b) = true.
Proof.
  unfold gt. intros Ha Hb. rewrite FloatAxioms.ltb_spec, FloatAxioms.leb_spec. unfold SFltb, SFleb.
  destruct (SFcompare (Prim2SF b) (Prim2SF a)) as [c|] eqn:Hc.
  - rewrite (SFcompare_antisym _ _ _ Hc). destruct c; simpl; congruence.
  - exfalso.
    assert (Prim2SF a <> S754_nan) as Ha'
      by (intros E; apply is_nan_spec in E; congruence).
    assert (Prim2SF b <> S754_nan) as Hb'
      by (intros E; apply is_nan_spec in E; congruence).
    destruct (Prim2SF a), (Prim2SF b); simpl in Hc; congruence.
Qed.

End F64Facts.

(** ** The reconciliation pass of [get_trials] *)

Module TrialsFacts.
Import F64 F64Facts Trials.

(** *** [get_next_flash] *)

(** The result of the query, read off the table: the first row in table
    order whose [start_time] is [>=] the timestamp, if there is one. *)
Definition first_flash_from (stimulus_presentations : list presentation)
    (timestamp : float) (found : option float) : Prop :=
  match found with
  | Some v =>
      exists before p after,
        stimulus_presentations = before ++ p :: after /\
        v = flash_start_time p /\
        ge v timestamp = true /\
        Forall (fun q => ge (flash_start_time q) timestamp = false) before
  | None =>
      Forall (fun q => ge (flash_start_time q) timestamp = false)
             stimulus_presentations
  end.



Lemma get_next_flash_first sp t :
  first_flash_from sp t (get_next_flash sp t).
Proof.
  unfold get_next_flash.
  induction sp as [|p sp IH]; simpl.
  - constructor.
  - destruct (ge (flash_start_time p) t) eqn:Hp; simpl.
    + exists [], p, sp. repeat split; auto.
    + destruct (List.filter _ sp) as [|q qs] eqn:Hq; simpl in *.
      * constructor; assumption.
      * destruct IH as (before & p' & after & -> & Hv & Hge & Hb).
        exists (p :: before), p', after. repeat split; auto.
Qed.

Lemma get_next_flash_not_nan sp t v :
  get_next_flash sp t = Some v -> is_nan v = false.
Proof.
  intros H. pose proof (get_next_flash_first sp t) as F.
  rewrite H in F. destruct F as (_ & _ & _ & _ & _ & Hge & _).
  unfold ge in Hge. eapply leb_not_nan_r; eassumption.
Qed.

Lemma get_next_flash_contained sp t v :
  get_next_flash sp t = Some v -> contains (start_times sp) v = true.
Proof.
  intros H. pose proof (get_next_flash_not_nan _ _ _ H) as Hn.
  pose proof (get_next_flash_first sp t) as F.
  rewrite H in F. destruct F as (before & p & after & -> & -> & _ & _).
  unfold contains, start_times. apply existsb_exists.
  exists (flash_start_time p). split.
  - apply in_map, in_or_app. right. left. reflexivity.
  - apply eqb_refl, Hn.
Qed.


(** *** The shape of a successful call *)

(** The input trials that line 241 keeps, and those that are returned. *)
Definition covered_trials (last_t : float)
    (trials0 : list (@trial_row float)) : list (@trial_row float) :=
  List.filter (fun r => negb (gt (stop_time r) last_t)) trials0.

Definition kept (filter_aborted_trials : bool) (last_t : float)
    (trials0 : list (@trial_row float)) : list (@trial_row float) :=
  List.filter
    (fun r => negb (gt (stop_time r) last_t) &&
              (negb filter_aborted_trials || negb (aborted r)))
    trials0.

Section Shape.

Variable trials0 : list (@trial_row float).
Variable sp : list presentation.
Variable reward_rate_of :
  list float -> list float -> float -> Z -> Z -> list float.

(** Line 233 on one row. *)
Definition patch (row : @trial_row float) : @trial_row (option float) :=
  set_change_time row (get_next_flash sp (change_time row)).

(** Line 249 on one row. *)
Definition relatch (row : @trial_row (option float)) :=
  set_response_latency row (recalculate_response_latency row).

(** The rows that reach line 253. *)
Definition reconciled (last_t : float) : list (@trial_row (option float)) :=
  map relatch
    (List.filter (fun row => negb (gt (stop_time row) last_t))
                 (map patch trials0)).

Definition selected (filter_aborted_trials : bool) (last_t : float) :=
  if filter_aborted_trials
  then List.filter (fun row : @trial_row (option float) =>
                      negb (aborted row)) (reconciled last_t)
  else reconciled last_t.

Lemma set_reward_rate_inr trials rates rated :
  set_reward_rate trials rates = inr rated ->
  map fst rated = trials /\ map snd rated = rates.
Proof.
  revert rates rated.
  induction trials as [|row trials IH]; intros [|rate rates] rated; simpl;
    try discriminate.
  - intros [= <-]. split; reflexivity.
  - destruct (set_reward_rate trials rates) as [e|rest] eqn:Hr; simpl;
      [discriminate|].
    intros [= <-]. destruct (IH _ _ Hr) as [<- <-]. split; reflexivity.
Qed.

Lemma assert_change_times_ok cts :
  Forall (fun ct => contains (start_times sp) ct = true) cts ->
  assert_change_times cts sp = inr tt.
Proof.
  induction 1 as [|ct cts Hct _ IH]; simpl; [reflexivity|].
  rewrite Hct. simpl. exact IH.
Qed.

Lemma reconciled_change_time last_t row :
  In row (reconciled last_t) ->
  exists r, In r trials0 /\ trials_id r = trials_id row /\
            change_time row = get_next_flash sp (change_time r).
Proof.
  unfold reconciled. intros H.
  apply in_map_iff in H. destruct H as (row' & <- & H).
  apply filter_In in H. destruct H as [H _].
  apply in_map_iff in H. destruct H as (r & <- & H).
  exists r. repeat split; auto.
Qed.

Lemma reconciled_asserts last_t :
  assert_change_times (notna_change_times (reconciled last_t)) sp = inr tt.
Proof.
  apply assert_change_times_ok. apply Forall_forall. intros ct Hct.
  apply list_elem_of_In in Hct.
  unfold notna_change_times in Hct. apply in_flat_map in Hct.
  destruct Hct as (row & Hrow & Hct).
  destruct (reconciled_change_time _ _ Hrow) as (r & _ & _ & Hr).
  rewrite Hr in Hct.
  destruct (get_next_flash sp (change_time r)) as [v|] eqn:Hv; [|destruct Hct].
  destruct (is_nan v); [destruct Hct|].
  destruct Hct as [<-|[]]. eapply get_next_flash_contained, Hv.
Qed.

Lemma covered_patched last_t :
  List.filter (fun row : @trial_row (option float) =>
                 negb (gt (stop_time row) last_t)) (map patch trials0) =
  map patch (covered_trials last_t trials0).
Proof.
  unfold covered_trials. induction trials0 as [|r rs IH]; simpl;
    [reflexivity|].
  destruct (gt (stop_time r) last_t); simpl; [exact IH|].
  f_equal. exact IH.
Qed.

Lemma reconciled_covered last_t :
  reconciled last_t =
  map (fun r => relatch (patch r)) (covered_trials last_t trials0).
Proof. unfold reconciled. rewrite covered_patched, map_map. reflexivity. Qed.

Lemma selected_kept filter_aborted_trials last_t :
  selected filter_aborted_trials last_t =
  map (fun r => relatch (patch r)) (kept filter_aborted_trials last_t trials0).
Proof.
  unfold selected, reconciled, kept.
  induction trials0 as [|r rs IH]; simpl.
  - destruct filter_aborted_trials; reflexivity.
  - destruct (gt (stop_time r) last_t); simpl; [exact IH|].
    destruct filter_aborted_trials; simpl in *.
    + destruct (aborted r); simpl; [exact IH|]. f_equal. exact IH.
    + f_equal. exact IH.
Qed.

Lemma set_reward_rate_total (trials : list (@trial_row (option float)))
    rates :
  length rates = length trials ->
  exists rated, set_reward_rate trials rates = inr rated.
Proof.
  revert rates. induction trials as [|row trials IH]; intros [|rate rates];
    simpl; try discriminate.
  - eexists. reflexivity.
  - intros [= Hlen]. destruct (IH _ Hlen) as [rest ->]. simpl.
    eexists. reflexivity.
Qed.

(** [get_trials], stage by stage: the two exceptions before the
    assertions, the assertions (which hold), the reward rates. *)
Lemma get_trials_eq filter_aborted_trials :
  get_trials trials0 sp reward_rate_of filter_aborted_trials =
  match last sp with
  | None => inl Py.IndexError
  | Some last_row =>
      match covered_trials (flash_start_time last_row) trials0 with
      | [] => inl Py.ValueError
      | _ :: _ =>
          match set_reward_rate
                  (selected filter_aborted_trials
                     (flash_start_time last_row))
                  (reward_rate_of
                     (map response_latency
                        (selected filter_aborted_trials
                           (flash_start_time last_row)))
                     (map start_time
                        (selected filter_aborted_trials
                           (flash_start_time last_row))) 0.75 25%Z 10%Z)
          with
          | inl e => inl e
          | inr rated =>
              inr (map (fun '(row, rate) =>
                          ReturnedTrial row rate
                            (orb (hit row) (false_alarm row))) rated)
          end
      end
  end.
Proof.
  unfold get_trials.
  destruct (last sp) as [last_row|]; [|reflexivity].
  cbn [Py.bind Py.ret]. fold patch.
  pose proof (reconciled_asserts (flash_start_time last_row)) as Ha.
  unfold selected. unfold reconciled in *. rewrite covered_patched in *.
  destruct (covered_trials (flash_start_time last_row) trials0) as [|r rs];
    [reflexivity|].
  cbn [map Py.bind Py.ret Py.raise].
  cbn [map] in Ha. unfold relatch in Ha. rewrite Ha.
  reflexivity.
Qed.

(** A call that returns went through every stage. *)
Lemma get_trials_inr filter_aborted_trials out :
  get_trials trials0 sp reward_rate_of filter_aborted_trials = inr out ->
  exists last_row,
    last sp = Some last_row /\
    map columns out =
      selected filter_aborted_trials (flash_start_time last_row) /\
    Forall (fun o => response_binary o = orb (hit o) (false_alarm o)) out.
Proof.
  rewrite get_trials_eq.
  destruct (last sp) as [last_row|]; [|discriminate].
  destruct (covered_trials _ _); [discriminate|].
  destruct (set_reward_rate _ _) as [e|rated] eqn:Hr; [discriminate|].
  intros [= <-]. exists last_row.
  apply set_reward_rate_inr in Hr. destruct Hr as [Hr _].
  split; [reflexivity|]. split.
  - rewrite <- Hr, map_map. apply map_ext. intros [row rate]. reflexivity.
  - apply Forall_forall. intros o Ho. apply list_elem_of_In in Ho.
    apply in_map_iff in Ho. destruct Ho as ([row rate] & <- & _).
    reflexivity.
Qed.

(** The reward rates a returning call attached. *)
Lemma get_trials_rates filter_aborted_trials out :
  get_trials trials0 sp reward_rate_of filter_aborted_trials = inr out ->
  exists last_row,
    last sp = Some last_row /\
    covered_trials (flash_start_time last_row) trials0 <> [] /\
    map columns out =
      selected filter_aborted_trials (flash_start_time last_row) /\
    map reward_rate out =
      reward_rate_of
        (map response_latency
           (selected filter_aborted_trials (flash_start_time last_row)))
        (map start_time
           (selected filter_aborted_trials (flash_start_time last_row)))
        0.75 25%Z 10%Z.
Proof.
  rewrite get_trials_eq.
  destruct (last sp) as [last_row|]; [|discriminate].
  destruct (covered_trials _ _) eqn:Hc; [discriminate|].
  destruct (set_reward_rate _ _) as [e|rated] eqn:Hr; [discriminate|].
  intros [= <-]. exists last_row.
  apply set_reward_rate_inr in Hr. destruct Hr as [Hr1 Hr2].
  split; [reflexivity|]. split; [rewrite Hc; discriminate|]. split.
  - rewrite <- Hr1, map_map. apply map_ext. intros [row rate]. reflexivity.
  - rewrite <- Hr2, map_map. apply map_ext. intros [row rate]. reflexivity.
Qed.

(** A call returns once the presentation table is not empty, line 241
    keeps a trial and the reward-rate routine gives one rate per
    latency. *)
Lemma get_trials_total filter_aborted_trials last_row :
  last sp = Some last_row ->
  covered_trials (flash_start_time last_row) trials0 <> [] ->
  (forall latencies starts window trial_window initial_trials,
     length (reward_rate_of latencies starts window trial_window
               initial_trials) = length latencies) ->
  exists out,
    get_trials trials0 sp reward_rate_of filter_aborted_trials = inr out.
Proof.
  intros Hlast Hc Hlen. rewrite get_trials_eq, Hlast.
  destruct (covered_trials _ _); [congruence|].
  match goal with |- context [set_reward_rate ?t ?r] =>
    destruct (set_reward_rate_total t r) as [rated ->]
  end.
  - rewrite Hlen, length_map. reflexivity.
  - eexists. reflexivity.
Qed.

Lemma selected_In filter_aborted_trials last_t row :
  In row (selected filter_aborted_trials last_t) ->
  In row (reconciled last_t).
Proof.
  unfold selected. destruct filter_aborted_trials; [|auto].
  intros H. apply filter_In in H. tauto.
Qed.

Lemma selected_ids filter_aborted_trials last_t :
  map trials_id (selected filter_aborted_trials last_t) =
  map trials_id
    (List.filter
       (fun r => negb (gt (stop_time r) last_t) &&
                 (negb filter_aborted_trials || negb (aborted r)))
       trials0).
Proof.
  unfold selected, reconciled.
  induction trials0 as [|r rs IH]; simpl.
  - destruct filter_aborted_trials; reflexivity.
  - destruct (gt (stop_time r) last_t); simpl; [exact IH|].
    destruct filter_aborted_trials; simpl in *.
    + destruct (aborted r); simpl; [exact IH|]. f_equal. exact IH.
    + f_equal. exact IH.
Qed.

Lemma reconciled_stop_time last_t row :
  In row (reconciled last_t) -> gt (stop_time row) last_t = false.
Proof.
  unfold reconciled. intros H.
  apply in_map_iff in H. destruct H as (row' & <- & H).
  apply filter_In in H. destruct H as [_ H]. simpl.
  apply negb_true_iff in H. exact H.
Qed.

Lemma set_reward_rate_inl trials rates e :
  set_reward_rate trials rates = inl e -> e = Py.ValueError.
Proof.
  revert rates.
  induction trials as [|row trials IH]; intros [|rate rates]; simpl;
    try discriminate; try (intros [= <-]; reflexivity).
  destruct (set_reward_rate trials rates) as [e'|rest] eqn:Hr; simpl;
    [|discriminate].
  intros [= <-]. eapply IH, Hr.
Qed.

(** The only exceptions of [get_trials] are the [IndexError] of an empty
    presentation table and the [ValueError] of a reward-rate array of the
    wrong length. *)
Lemma get_trials_inl filter_aborted_trials e :
  get_trials trials0 sp reward_rate_of filter_aborted_trials = inl e ->
  (e = Py.IndexError /\ sp = []) \/ e = Py.ValueError.
Proof.
  rewrite get_trials_eq.
  destruct (last sp) as [last_row|] eqn:Hlast.
  - destruct (covered_trials _ _); [intros [= <-]; right; reflexivity|].
    destruct (set_reward_rate _ _) as [e'|rated] eqn:Hr; [|discriminate].
    intros [= <-]. right. eapply set_reward_rate_inl, Hr.
  - intros [= <-]. left. split; [reflexivity|].
    apply last_None in Hlast. exact Hlast.
Qed.

End Shape.

End TrialsFacts.

(** ** Claims about [get_trials] *)

Module TrialsSpec.
Import F64 F64Facts Trials TrialsFacts Samples.





(** The recomputed latency as the specification words it. *)
Definition response_latency_spec (lick_times : list float)
    (patched_change_time : option float) : float :=
  match lick_times with
  | first_lick :: _ =>
      match patched_change_time with
      | Some ct => if is_nan ct then nan else first_lick - ct
      | None => nan
      end
  | [] => nan
  end.

Lemma recalculate_response_latency_spec (row : @trial_row (option float)) :
  recalculate_response_latency row =
  response_latency_spec (lick_times row) (change_time row).
Proof.
  unfold recalculate_response_latency, response_latency_spec, isnull.
  rewrite length_map.
  destruct (lick_times row) as [|l ls]; simpl; [reflexivity|].
  destruct (change_time row) as [ct|]; simpl; [|reflexivity].
  destruct (is_nan ct); reflexivity.
Qed.

(** C2.  [get_trials] returns whenever the presentation table is not
    empty, line 241 keeps a trial and the reward-rate routine gives one
    rate per latency.  The table it returns has one row for each input
    trial that passes the two filters, in order, with that trial's lick
    times and its patched change time, and the row's [response_latency]
    is the first lick time minus the patched change time when the trial
    has a lick and a non-null patched change time, and NaN otherwise. *)
Theorem get_trials_response_latency trials0 sp reward_rate_of
    filter_aborted_trials :
  (forall last_row,
     last sp = Some last_row ->
     covered_trials (flash_start_time last_row) trials0 <> [] ->
     (forall latencies starts window trial_window initial_trials,
        length (reward_rate_of latencies starts window trial_window
                  initial_trials) = length latencies) ->
     exists out,
       get_trials trials0 sp reward_rate_of filter_aborted_trials
         = inr out) /\
  (forall out,
     get_trials trials0 sp reward_rate_of filter_aborted_trials = inr out ->
     exists last_row,
       last sp = Some last_row /\
       Forall2 (fun (r : @trial_row float) (o : returned_trial) =>
         trials_id o = trials_id r /\
         lick_times o = lick_times r /\
         change_time o = get_next_flash sp (change_time r) /\
         response_latency o =
           response_latency_spec (lick_times o) (change_time o) /\
         (forall first_lick rest ct,
            lick_times o = first_lick :: rest -> change_time o = Some ct ->
            isnull (change_time o) = false ->
            response_latency o = first_lick - ct) /\
         (lick_times o = [] \/ isnull (change_time o) = true ->
            response_latency o = nan))
         (kept filter_aborted_trials (flash_start_time last_row) trials0)
         out).
Proof.
  split.
  - intros last_row Hlast Hc Hlen.
    exact (get_trials_total trials0 sp reward_rate_of filter_aborted_trials
             last_row Hlast Hc Hlen).
  - intros out H. apply get_trials_inr in H.
    destruct H as (last_row & Hlast & Hcols & _).
    exists last_row. split; [exact Hlast|].
    rewrite selected_kept in Hcols. revert out Hcols.
    induction (kept filter_aborted_trials (flash_start_time last_row)
                 trials0) as [|r rs IH]; intros [|o out]; simpl;
      try discriminate.
    + constructor.
    + intros [= Ho Hout]. constructor; [|apply IH, Hout].
      assert (response_latency o =
              response_latency_spec (lick_times o) (change_time o)) as E.
      { rewrite Ho. unfold relatch. simpl.
        apply recalculate_response_latency_spec. }
      split; [rewrite Ho; reflexivity|].
      split; [rewrite Ho; reflexivity|].
      split; [rewrite Ho; reflexivity|].
      split; [exact E|]. rewrite E. split.
      * intros first_lick rest ct -> ->. simpl. intros ->. reflexivity.
      * intros [->| Hnull]; [reflexivity|].
        unfold response_latency_spec.
        destruct (lick_times o); [reflexivity|].
        destruct (change_time o) as [ct|]; [|reflexivity].
        simpl in Hnull. rewrite Hnull. reflexivity.
Qed.

(** The sample session: the hit at 1.4375 is patched to the flash at
    1.5 and its first lick at 1.875 gives the latency 0.375; the aborted
    trial has no change time and the false alarm has no lick. *)
Lemma get_trials_response_latency_witness :
  exists out,
    get_trials session_trials flashes flat_reward_rate false = inr out /\
    map (fun o : returned_trial => response_latency o) out
      = [0.375; nan; nan].
Proof.
  destruct (get_trials_response_latency session_trials flashes
              flat_reward_rate false) as [Hret Hspec].
  destruct (Hret (Presentation 3 3) eq_refl) as [out Hout].
  - vm_compute. discriminate.
  - intros. unfold flat_reward_rate. apply length_map.
  - exists out. split; [exact Hout|].
    destruct (Hspec out Hout) as (last_row & Hlast & F).
    vm_compute in Hlast. injection Hlast as <-.
    vm_compute kept in F.
    inversion F as [|r1 o1 rs1 os1 (_ & Hl1 & Hc1 & Hr1 & _) F1]; subst.
    inversion F1 as [|r2 o2 rs2 os2 (_ & Hl2 & Hc2 & Hr2 & _) F2]; subst.
    inversion F2 as [|r3 o3 rs3 os3 (_ & Hl3 & Hc3 & Hr3 & _) F3]; subst.
    inversion F3; subst.
    cbn [map]. rewrite Hr1, Hr2, Hr3, Hl1, Hl2, Hl3, Hc1, Hc2, Hc3.
    vm_compute. reflexivity.
Defined.

(** C3.  [get_trials] returns whenever the presentation table is not
    empty, line 241 keeps a trial and the reward-rate routine gives one
    rate per latency.  The table it returns has one row for each input
    trial that passes the two filters, in order, with that trial's [hit]
    and [false_alarm], and the row's [response_binary] is
    [hit or false_alarm]. *)
Theorem get_trials_response_binary trials0 sp reward_rate_of
    filter_aborted_trials :
  (forall last_row,
     last sp = Some last_row ->
     covered_trials (flash_start_time last_row) trials0 <> [] ->
     (forall latencies starts window trial_window initial_trials,
        length (reward_rate_of latencies starts window trial_window
                  initial_trials) = length latencies) ->
     exists out,
       get_trials trials0 sp reward_rate_of filter_aborted_trials
         = inr out) /\
  (forall out,
     get_trials trials0 sp reward_rate_of filter_aborted_trials = inr out ->
     exists last_row,
       last sp = Some last_row /\
       Forall2 (fun (r : @trial_row float) (o : returned_trial) =>
         trials_id o = trials_id r /\
         hit o = hit r /\
         false_alarm o = false_alarm r /\
         response_binary o = orb (hit o) (false_alarm o))
         (kept filter_aborted_trials (flash_start_time last_row) trials0)
         out).
Proof.
  split.
  - intros last_row Hlast Hc Hlen.
    exact (get_trials_total trials0 sp reward_rate_of filter_aborted_trials
             last_row Hlast Hc Hlen).
  - intros out H. apply get_trials_inr in H.
    destruct H as (last_row & Hlast & Hcols & Hbin).
    exists last_row. split; [exact Hlast|].
    rewrite selected_kept in Hcols. revert out Hcols Hbin.
    induction (kept filter_aborted_trials (flash_start_time last_row)
                 trials0) as [|r rs IH]; intros [|o out]; simpl;
      try discriminate.
    + constructor.
    + intros [= Ho Hout] Hbin.
      apply Forall_cons in Hbin. destruct Hbin as [Hb Hbin].
      constructor; [|apply IH; assumption].
      repeat split; try (rewrite Ho; reflexivity). exact Hb.
Qed.

(** The sample session: the hit and the false alarm responded, the
    aborted trial did not. *)
Lemma get_trials_response_binary_witness :
  exists out,
    get_trials session_trials flashes flat_reward_rate false = inr out /\
    map response_binary out = [true; false; true].
Proof.
  destruct (get_trials_response_binary session_trials flashes
              flat_reward_rate false) as [Hret Hspec].
  destruct (Hret (Presentation 3 3) eq_refl) as [out Hout].
  - vm_compute. discriminate.
  - intros. unfold flat_reward_rate. apply length_map.
  - exists out. split; [exact Hout|].
    destruct (Hspec out Hout) as (last_row & Hlast & F).
    vm_compute in Hlast. injection Hlast as <-.
    vm_compute kept in F.
    inversion F as [|r1 o1 rs1 os1 (_ & Hh1 & Hf1 & Hb1) F1]; subst.
    inversion F1 as [|r2 o2 rs2 os2 (_ & Hh2 & Hf2 & Hb2) F2]; subst.
    inversion F2 as [|r3 o3 rs3 os3 (_ & Hh3 & Hf3 & Hb3) F3]; subst.
    inversion F3; subst.
    cbn [map]. rewrite Hb1, Hb2, Hb3, Hh1, Hh2, Hh3, Hf1, Hf2, Hf3.
    reflexivity.
Defined.

(** The last sentence of the specification of the drop, as worded:
    every returned trial has [stop_time <=] the start time of the last
    stimulus presentation. *)
Definition returned_stop_time_le_last (trials0 : list (@trial_row float))
    (sp : list presentation) reward_rate_of (filter_aborted_trials : bool)
  : Prop :=
  forall out last_row,
    get_trials trials0 sp reward_rate_of filter_aborted_trials = inr out ->
    last sp = Some last_row ->
    Forall (fun o : returned_trial =>
              (stop_time o <=? flash_start_time last_row) = true) out.

(** A trial whose stop time is NaN is not strictly greater than the last
    start time, so it is returned; it is not [<=] it either. *)
Lemma nan_stop_time_is_returned :
  ~ returned_stop_time_le_last [open_ended_trial] flashes
      flat_reward_rate true.
Proof.
  intros H. specialize (H _ _ eq_refl eq_refl).
  apply Forall_inv in H. vm_compute in H. discriminate.
Qed.

(** C4 (amended).  With [last] the start time of the last stimulus
    presentation, the returned table holds, in order, exactly the trials
    for which [stop_time > last] is false (and, when aborted trials are
    filtered, that are not aborted): a trial with [stop_time > last] is
    dropped and every other one is kept at this step.  So [stop_time >
    last] is false of every returned trial, and [stop_time <= last] holds
    of it whenever neither value is NaN. *)
Theorem get_trials_drops_uncovered trials0 sp reward_rate_of
    filter_aborted_trials out :
  get_trials trials0 sp reward_rate_of filter_aborted_trials = inr out ->
  exists last_row,
    last sp = Some last_row /\
    map (fun o : returned_trial => trials_id o) out =
      map trials_id
        (List.filter
           (fun r => negb (gt (stop_time r) (flash_start_time last_row)) &&
                     (negb filter_aborted_trials || negb (aborted r)))
           trials0) /\
    Forall (fun o : returned_trial =>
      gt (stop_time o) (flash_start_time last_row) = false /\
      (is_nan (stop_time o) = false ->
       is_nan (flash_start_time last_row) = false ->
       (stop_time o <=? flash_start_time last_row) = true)) out.
Proof.
  intros H. apply get_trials_inr in H.
  destruct H as (last_row & Hlast & Hcols & _).
  exists last_row. split; [exact Hlast|]. split.
  - rewrite <- (selected_ids trials0 sp), <- Hcols, map_map. reflexivity.
  - apply Forall_forall. intros o Ho. apply list_elem_of_In in Ho.
    assert (In (columns o) (map columns out)) as Hin by (apply in_map, Ho).
    rewrite Hcols in Hin. apply selected_In, reconciled_stop_time in Hin.
    split; [exact Hin|].
    intros Ha Hb. apply not_gt_leb; assumption.
Qed.

Lemma get_trials_drops_uncovered_witness :
  exists last_row,
    last flashes = Some last_row /\
    map (fun o : returned_trial => trials_id o) session_returned =
      map trials_id
        (List.filter
           (fun r => negb (gt (stop_time r) (flash_start_time last_row)) &&
                     (negb true || negb (aborted r)))
           session_trials) /\
    Forall (fun o : returned_trial =>
      gt (stop_time o) (flash_start_time last_row) = false /\
      (is_nan (stop_time o) = false ->
       is_nan (flash_start_time last_row) = false ->
       (stop_time o <=? flash_start_time last_row) = true))
      session_returned.
Proof.
  apply (get_trials_drops_uncovered session_trials flashes
           flat_reward_rate true).
  vm_compute. reflexivity.
Defined.

(** C9.  After the patch every non-null change time is one of the
    values of [stimulus_presentations['start_time']], so whatever the two
    tables and the reward-rate routine are, [get_trials] never raises
    [AssertionError]. *)
Theorem get_trials_assertion_holds (trials0 : list (@trial_row float))
    (sp : list presentation) reward_rate_of (filter_aborted_trials : bool) :
  Forall (fun row : @trial_row (option float) =>
            forall v, change_time row = Some v -> is_nan v = false ->
                      In v (start_times sp) /\
                      contains (start_times sp) v = true)
         (map (patch sp) trials0) /\
  get_trials trials0 sp reward_rate_of filter_aborted_trials
    <> inl Py.AssertionError.
Proof.
  split.
  - apply Forall_forall. intros row Hrow v Hv _.
    apply list_elem_of_In, in_map_iff in Hrow.
    destruct Hrow as (r & <- & _). simpl in Hv.
    split; [|eapply get_next_flash_contained, Hv].
    pose proof (get_next_flash_first sp (change_time r)) as F.
    rewrite Hv in F. destruct F as (before & p & after & -> & -> & _).
    unfold start_times. rewrite map_app. apply in_or_app. right. left.
    reflexivity.
  - intros H. apply get_trials_inl in H.
    destruct H as [[H _]|H]; discriminate.
Qed.

End TrialsSpec.

(** ** Claims about the task parameters and the stimulus presentations *)

Module NwbApiSpec.
Import Py Frame NwbApi TableSamples.

(** C8.  Whatever mapping the superclass returns, [get_task_parameters]
    returns it with [omitted_flash_fraction] set to 0.05 and
    [stimulus_duration_sec] set to 0.25 and every other entry as it was;
    an exception of the superclass is passed on. *)
#[warnings="-inexact-float"]
Theorem get_task_parameters_overrides (super_parameters : gmap string value) :
  (exists task_parameters,
     get_task_parameters (inr super_parameters) = inr task_parameters /\
     task_parameters !! "omitted_flash_fraction" = Some (Float 0.05) /\
     task_parameters !! "stimulus_duration_sec" = Some (Float 0.25) /\
     forall key : string,
       key <> "omitted_flash_fraction" -> key <> "stimulus_duration_sec" ->
       task_parameters !! key = super_parameters !! key) /\
  forall e, get_task_parameters (inl e) = inl e.
Proof.
  split; [|reflexivity].
  eexists. split; [reflexivity|].
  split; [|split].
  - rewrite lookup_insert_ne by discriminate. apply lookup_insert_eq.
  - apply lookup_insert_eq.
  - intros key H1 H2.
    rewrite !lookup_insert_ne by congruence. reflexivity.
Qed.

Lemma lookup_column_app name cols1 cols2 :
  lookup_column name (cols1 ++ cols2) =
  match lookup_column name cols1 with
  | Some cells => Some cells
  | None => lookup_column name cols2
  end.
Proof.
  induction cols1 as [|[label cells] cols1 IH]; simpl; [reflexivity|].
  destruct (String.eqb label name); [reflexivity|exact IH].
Qed.

Lemma lookup_column_dropped name index_left index_right cols :
  lookup_column name
    (map (fun col => (fst col, reindex index_left index_right (snd col)))
       (List.filter
          (fun col => negb (existsb (String.eqb (fst col)) [name])) cols))
  = None.
Proof.
  induction cols as [|[label cells] cols IH]; simpl; [reflexivity|].
  destruct (String.eqb label name) eqn:E; simpl.
  - exact IH.
  - rewrite E. exact IH.
Qed.

Lemma has_column_dropped name cols :
  existsb (String.eqb name)
    (map fst
       (List.filter
          (fun col : string * list value =>
             negb (existsb (String.eqb (fst col)) [name])) cols)) = false.
Proof.
  induction cols as [|[label cells] cols IH]; [reflexivity|].
  cbn [List.filter existsb fst]. rewrite orb_false_r.
  destruct (String.eqb label name) eqn:E; cbn [negb map fst existsb].
  - exact IH.
  - rewrite String.eqb_sym, E. exact IH.
Qed.

Lemma select_cons name names cols out :
  select (name :: names) cols = Some out ->
  exists cells tail,
    lookup_column name cols = Some cells /\
    select names cols = Some tail /\
    out = (name, cells) :: tail.
Proof.
  simpl. destruct (lookup_column name cols) as [cells|]; [|discriminate].
  destruct (select names cols) as [tail|]; [|discriminate].
  intros [= <-]. exists cells, tail. auto.
Qed.

(** C6.  A table returned by [get_stimulus_presentations] has exactly
    the 18 listed columns in the listed order, with [index] appearing as
    [absolute_flash_number] and [running_speed] as [mean_running_speed],
    and its index is named [flash_id].  The extended table had an
    [omitted] column, which was dropped before the join: the returned
    [omitted] column is the one of the superclass table. *)
Theorem get_stimulus_presentations_reshapes super_parameters
    super_presentations read_hdf path df :
  get_stimulus_presentations super_parameters super_presentations
    read_hdf path = inr df ->
  column_names df =
    ["image_name"; "image_index"; "start_time"; "stop_time"; "omitted";
     "change"; "duration"; "licks"; "rewards"; "mean_running_speed";
     "absolute_flash_number"; "time_from_last_lick";
     "time_from_last_reward"; "time_from_last_change"; "block_index";
     "image_block_repetition"; "repeat_within_block"; "image_set"] /\
  length (columns df) = 18%nat /\
  index_name df = Some "flash_id" /\
  exists base extended dropped joined,
    super_presentations = inr base /\
    read_hdf path = inr extended /\
    has_column "omitted" extended = true /\
    drop ["omitted"] extended = inr dropped /\
    has_column "omitted" dropped = false /\
    join base dropped = inr joined /\
    index df = index base /\
    lookup_column "omitted" (columns df) =
      lookup_column "omitted" (columns base) /\
    lookup_column "absolute_flash_number" (columns df) =
      lookup_column "index" (columns joined) /\
    lookup_column "mean_running_speed" (columns df) =
      lookup_column "running_speed" (columns joined).
Proof.
  unfold get_stimulus_presentations, get_extended_stimulus_presentations_df.
  destruct super_presentations as [e|base]; cbn [bind]; [discriminate|].
  destruct (read_hdf path) as [e|extended] eqn:Hread; cbn [bind];
    [discriminate|].
  destruct (drop ["omitted"] extended) as [e|dropped] eqn:Hdrop; cbn [bind];
    [discriminate|].
  destruct (join base dropped) as [e|joined] eqn:Hjoin; cbn [bind];
    [discriminate|].
  unfold getitem_columns.
  destruct (select presentation_columns (columns joined)) as [cols|]
    eqn:Hsel; cbn [bind ret raise]; [|discriminate].
  unfold presentation_columns in Hsel.
  do 18 (apply select_cons in Hsel;
         destruct Hsel as (? & ? & ? & Hsel & ->)).
  injection Hsel as <-.
  destruct (get_task_parameters super_parameters) as [e|tp]; cbn [bind];
    [discriminate|].
  destruct (getitem tp "stage") as [e|stage]; cbn [bind]; [discriminate|].
  destruct (subscript stage 15) as [e|image_set]; cbn [bind ret];
    [discriminate|].
  intros [= <-].
  split; [vm_compute; reflexivity|].
  split; [vm_compute; reflexivity|].
  split; [reflexivity|].
  exists base, extended, dropped, joined.
  assert (has_column "omitted" extended = true) as Hext.
  { unfold drop in Hdrop. simpl in Hdrop.
    destruct (has_column "omitted" extended); [reflexivity|discriminate]. }
  assert (columns dropped =
          List.filter (fun col => negb (existsb (String.eqb (fst col))
                                          ["omitted"])) (columns extended)
          /\ index dropped = index extended) as [Hcols Hidx].
  { unfold drop in Hdrop. simpl in Hdrop. rewrite Hext in Hdrop.
    simpl in Hdrop. injection Hdrop as Hdrop. rewrite <- Hdrop.
    split; reflexivity. }
  assert (has_column "omitted" dropped = false) as Hdropped.
  { unfold has_column, column_names. rewrite Hcols.
    apply has_column_dropped. }
  assert (columns joined =
          columns base ++
          map (fun col => (fst col,
                           reindex (index base) (index dropped) (snd col)))
              (columns dropped) /\ index joined = index base) as [Hj Hji].
  { unfold join in Hjoin.
    destruct (existsb _ (column_names base)); [discriminate|].
    injection Hjoin as Hjoin. rewrite <- Hjoin. split; reflexivity. }
  do 6 (split; [first [reflexivity | assumption]|]).
  split; [exact Hji|].
  split; [|split].
  - vm_compute lookup_column at 1.
    match goal with H : lookup_column "omitted" (columns joined) = _ |- _ =>
      rewrite <- H end.
    rewrite Hj, lookup_column_app, Hcols, lookup_column_dropped.
    destruct (lookup_column "omitted" (columns base)); reflexivity.
  - vm_compute lookup_column at 1. symmetry. assumption.
  - vm_compute lookup_column at 1. symmetry. assumption.
Qed.

Lemma get_stimulus_presentations_reshapes_witness :
  column_names reshaped_presentations =
    ["image_name"; "image_index"; "start_time"; "stop_time"; "omitted";
     "change"; "duration"; "licks"; "rewards"; "mean_running_speed";
     "absolute_flash_number"; "time_from_last_lick";
     "time_from_last_reward"; "time_from_last_change"; "block_index";
     "image_block_repetition"; "repeat_within_block"; "image_set"] /\
  lookup_column "omitted" (columns reshaped_presentations) =
    Some [Bool false; Bool true] /\
  lookup_column "image_set" (columns reshaped_presentations) =
    Some [Str "B"; Str "B"].
Proof.
  pose proof (get_stimulus_presentations_reshapes (inr task_parameters)
                (inr base_presentations) hdf_store
                "extended_stimulus_presentations_df_880961028.h5"
                reshaped_presentations) as H.
  destruct H as [Hnames _]; [vm_compute; reflexivity|].
  split; [exact Hnames|]. split; vm_compute; reflexivity.
Defined.

End NwbApiSpec.

(** ** Claims about the failures of [BehaviorProjectCache] *)

Module CacheSpec.
Import Py Frame Cache CacheSamples.

(** C7.  When the file at a path cannot be opened,
    [get_analysis_files_metadata] and [from_json] raise the
    [FileNotFoundError] of [open] and leave the world as that one failed
    attempt left it: no other file is tried and nothing is printed.  A
    constructor call whose [cache_paths] lacks
    [analysis_files_metadata_path] raises nothing on that account: what
    lines 61-75 return it completes with the warning and
    [analysis_files_metadata = None], so with the three documented keys
    and a manifest that loads it returns the cache. *)
Theorem file_errors_propagate (json_load : string -> result value)
    (read_csv : string -> result DataFrame) :
  (forall (w : world) (path : string),
     files w !! path = None ->
     open_ path w = (inl (FileNotFoundError path), tried path w)) /\
  (forall (w w' : world) (path : string) (e : exn),
     open_ path w = (inl e, w') ->
     get_analysis_files_metadata json_load path w = (inl e, w') /\
     from_json json_load read_csv path w = (inl e, w')) /\
  (forall (cache_paths : gmap string value) (w : world),
     cache_paths !! "analysis_files_metadata_path" = None ->
     init json_load read_csv cache_paths w =
       match init_manifest read_csv cache_paths w with
       | (inl e, w') => (inl e, w')
       | (inr (manifest, nwb_base_dir, analysis_files_base_dir), w') =>
           (inr (mkCache manifest nwb_base_dir analysis_files_base_dir
                   NoneV),
            World (files w') (opened w') (stdout w' ++ [warning]))
       end) /\
  (forall (cache_paths : gmap string value) (w : world)
          (path text : string) (table manifest : DataFrame)
          (nwb_base_dir analysis_files_base_dir : value),
     cache_paths !! "analysis_files_metadata_path" = None ->
     cache_paths !! "manifest_path" = Some (Str path) ->
     cache_paths !! "nwb_base_dir" = Some nwb_base_dir ->
     cache_paths !! "analysis_files_base_dir"
       = Some analysis_files_base_dir ->
     files w !! path = Some text ->
     read_csv text = inr table ->
     getitem_columns manifest_columns table = inr manifest ->
     init json_load read_csv cache_paths w =
       (inr (mkCache manifest nwb_base_dir analysis_files_base_dir NoneV),
        World (files w) (opened w ++ [path]) (stdout w ++ [warning]))).
Proof.
  assert (forall (cache_paths : gmap string value) (w : world),
     cache_paths !! "analysis_files_metadata_path" = None ->
     init json_load read_csv cache_paths w =
       match init_manifest read_csv cache_paths w with
       | (inl e, w') => (inl e, w')
       | (inr (manifest, nwb_base_dir, analysis_files_base_dir), w') =>
           (inr (mkCache manifest nwb_base_dir analysis_files_base_dir
                   NoneV),
            World (files w') (opened w') (stdout w' ++ [warning]))
       end) as Hnote.
  { intros cache_paths w Hkey. unfold init. rewrite Hkey.
    unfold io_bind at 1.
    destruct (init_manifest read_csv cache_paths w)
      as [[e|[[m n] a]] w']; reflexivity. }
  split; [|split; [|split; [exact Hnote|]]].
  - intros w path Hmissing. unfold open_. rewrite Hmissing. reflexivity.
  - intros w w' path e Hopen. split.
    + unfold get_analysis_files_metadata, io_bind. rewrite Hopen.
      reflexivity.
    + unfold from_json, io_bind. rewrite Hopen. reflexivity.
  - intros cache_paths w path text table manifest nwb analysis
      Hkey Hpath Hnwb Hana Hfile Hcsv Hsel.
    rewrite (Hnote _ _ Hkey).
    unfold init_manifest, io_bind, lift, getitem.
    rewrite Hpath. cbn [ret]. unfold csv_reader, io_bind, open_, lift.
    rewrite Hfile, Hcsv, Hsel, Hnwb, Hana. reflexivity.
Qed.

Lemma file_errors_propagate_witness :
  from_json parse_json parse_csv "missing.json" disk =
    (inl (FileNotFoundError "missing.json"),
     World (files disk) ["missing.json"] []) /\
  init parse_json parse_csv
    {["manifest_path" := Str "manifest.csv";
      "nwb_base_dir" := Str "nwb_files";
      "analysis_files_base_dir" := Str "analysis_files"]} disk =
    (inr (mkCache
            (mkDataFrame None [0]%Z (firstn 10 (columns manifest_table)))
            (Str "nwb_files") (Str "analysis_files") NoneV),
     World (files disk) ["manifest.csv"] [warning]).
Proof.
  destruct (file_errors_propagate parse_json parse_csv)
    as (Hopen & Hfile & _ & Hinit).
  split.
  - apply (Hfile disk). apply Hopen. vm_compute. reflexivity.
  - apply (Hinit _ disk "manifest.csv" "manifest rows" manifest_table);
      vm_compute; reflexivity.
Defined.

End CacheSpec.

(** ** Claims about the lazy attributes of [ExtendedBehaviorSession] *)

Module SessionSpec.
Import Session.

Lemma attribute_eqb_eq a b : attribute_eqb a b = true <-> a = b.
Proof. destruct a, b; simpl; split; congruence. Qed.

Lemma attribute_eqb_refl a : attribute_eqb a a = true.
Proof. destruct a; reflexivity. Qed.

Section Memo.

Variables W V : Type.

(** Every read of [a] among [reads] returned [v]. *)
Definition reads_return (a : attribute) (v : option V)
    (reads : list (attribute * W)) (vs : list (option V)) : Prop :=
  Forall2 (fun (r : attribute * W) (x : option V) => fst r = a -> x = v)
          reads vs.

Lemma getattr_same (s : ExtendedBehaviorSession W V) a w :
  getattr s a w =
  (fst (lazy_get (s a) w),
   fun b => if attribute_eqb b a then snd (lazy_get (s a) w) else s b).
Proof. unfold getattr. destruct (lazy_get (s a) w); reflexivity. Qed.

(** One step of [read_all], seen from attribute [a]. *)
Lemma read_all_cons (s : ExtendedBehaviorSession W V) b w rest :
  read_all s ((b, w) :: rest) =
  (fst (lazy_get (s b) w)
     :: fst (read_all
               (fun c => if attribute_eqb c b
                         then snd (lazy_get (s b) w) else s c) rest),
   snd (read_all
          (fun c => if attribute_eqb c b
                    then snd (lazy_get (s b) w) else s c) rest)).
Proof.
  cbn [read_all]. rewrite getattr_same.
  destruct (read_all _ rest); reflexivity.
Qed.

(** A loader that always returns a table: what a sequence of reads does
    to its attribute, from any session. *)
Lemma read_all_memo (f : W -> V) reads :
  forall (s : ExtendedBehaviorSession W V) a,
  (forall w, api_method (s a) w = Some (f w)) ->
  match value (s a) with
  | Some v =>
      snd (read_all s reads) a = s a /\
      reads_return a (Some v) reads (fst (read_all s reads))
  | None =>
      match first_read a reads with
      | None =>
          snd (read_all s reads) a = s a /\
          forall v, reads_return a v reads (fst (read_all s reads))
      | Some w0 =>
          value (snd (read_all s reads) a) = Some (f w0) /\
          calls (snd (read_all s reads) a) = S (calls (s a)) /\
          reads_return a (Some (f w0)) reads (fst (read_all s reads))
      end
  end.
Proof.
  induction reads as [|[b w] rest IH]; intros s a Hf.
  - simpl. destruct (value (s a)); repeat split; constructor.
  - rewrite read_all_cons. cbn [first_read fst snd].
    set (s1 := fun c => if attribute_eqb c b
                        then snd (lazy_get (s b) w) else s c).
    specialize (IH s1 a).
    destruct (attribute_eqb b a) eqn:Hba.
    + apply attribute_eqb_eq in Hba. subst b.
      assert (s1 a = snd (lazy_get (s a) w)) as Hs1
        by (unfold s1; rewrite attribute_eqb_refl; reflexivity).
      rewrite Hs1 in IH. unfold lazy_get in *.
      destruct (value (s a)) as [v0|] eqn:Hv; cbn [fst snd] in *.
      * rewrite Hv in IH. destruct (IH Hf) as [IH1 IH2].
        split; [exact IH1|]. constructor; [reflexivity|exact IH2].
      * cbn [value api_method] in IH. rewrite Hf in IH.
        destruct (IH Hf) as [IH1 IH2].
        rewrite IH1, Hf. cbn [value calls].
        repeat split. constructor; [reflexivity|exact IH2].
    + assert (b <> a) as Hne
        by (intros E; apply attribute_eqb_eq in E; congruence).
      assert (s1 a = s a) as Hs1.
      { unfold s1. destruct (attribute_eqb a b) eqn:E; [|reflexivity].
        apply attribute_eqb_eq in E. congruence. }
      rewrite Hs1 in IH. specialize (IH Hf).
      destruct (value (s a)) as [v0|].
      * destruct IH as [IH1 IH2]. split; [exact IH1|].
        constructor; [intros E; simpl in E; congruence|exact IH2].
      * destruct (first_read a rest) as [w0|].
        -- destruct IH as (IH1 & IH2 & IH3). repeat split; try assumption.
           constructor; [intros E; simpl in E; congruence|exact IH3].
        -- destruct IH as [IH1 IH2]. split; [exact IH1|].
           intros v. constructor; [intros E; simpl in E; congruence|].
           apply IH2.
Qed.

(** A loader that always returns [None]: nothing is ever kept, and
    every read calls it again. *)
Lemma read_all_reload reads :
  forall (s : ExtendedBehaviorSession W V) a,
  (forall w, api_method (s a) w = None) ->
  value (s a) = None ->
  value (snd (read_all s reads) a) = None /\
  calls (snd (read_all s reads) a) = (calls (s a) + reads_of a reads)%nat /\
  reads_return a None reads (fst (read_all s reads)).
Proof.
  induction reads as [|[b w] rest IH]; intros s a Hf Hv.
  - simpl. unfold reads_of. simpl. rewrite Nat.add_0_r.
    repeat split; [exact Hv|constructor].
  - rewrite read_all_cons. cbn [fst snd].
    set (s1 := fun c => if attribute_eqb c b
                        then snd (lazy_get (s b) w) else s c).
    specialize (IH s1 a). unfold reads_of. cbn [List.filter fst].
    destruct (attribute_eqb b a) eqn:Hba.
    + apply attribute_eqb_eq in Hba. subst b.
      assert (s1 a = mkLazy (api_method (s a)) None (S (calls (s a))))
        as Hs1.
      { unfold s1. rewrite attribute_eqb_refl. unfold lazy_get.
        rewrite Hv, Hf. reflexivity. }
      rewrite Hs1 in IH. cbn [api_method value calls] in IH.
      destruct (IH Hf eq_refl) as (IH1 & IH2 & IH3).
      split; [exact IH1|]. split.
      * rewrite IH2. unfold reads_of. cbn [length]. lia.
      * constructor; [|exact IH3].
        intros _. unfold lazy_get. rewrite Hv, Hf. reflexivity.
    + assert (b <> a) as Hne
        by (intros E; apply attribute_eqb_eq in E; congruence).
      assert (s1 a = s a) as Hs1.
      { unfold s1. destruct (attribute_eqb a b) eqn:E; [|reflexivity].
        apply attribute_eqb_eq in E. congruence. }
      rewrite Hs1 in IH. destruct (IH Hf Hv) as (IH1 & IH2 & IH3).
      split; [exact IH1|]. split; [exact IH2|].
      constructor; [intros E; simpl in E; congruence|exact IH3].
Qed.

End Memo.

Arguments reads_return {W V}.
Arguments read_all_memo {W V}.
Arguments read_all_reload {W V}.

(** C5 (what the code does).  Construction calls no loader and keeps
    no value.  [trial_response_df] and [flash_response_df] are memoized:
    after any sequence of reads their loader has run once if the
    attribute was read and not at all otherwise, and every read returned
    the table loaded at the first read.  [image_index] is not:
    [get_image_index] returns [None], so nothing is ever kept and its
    loader runs again at every read. *)
Theorem image_index_reloaded_at_every_read (W V : Type)
    (get_trial_response_df get_flash_response_df image_index_names
       : W -> V) :
  let session :=
    init get_trial_response_df get_flash_response_df image_index_names in
  let load :=
    loader get_trial_response_df get_flash_response_df image_index_names in
  (forall a, value (session a) = None /\ calls (session a) = 0%nat) /\
  (forall (reads : list (attribute * W)) (a : attribute),
     a <> image_index ->
     calls (snd (read_all session reads) a) =
       match first_read a reads with
       | Some _ => 1%nat
       | None => 0%nat
       end /\
     forall w0, first_read a reads = Some w0 ->
       value (snd (read_all session reads) a) = load a w0 /\
       load a w0 <> None /\
       reads_return a (load a w0) reads (fst (read_all session reads))) /\
  (forall reads : list (attribute * W),
     calls (snd (read_all session reads) image_index) =
       reads_of image_index reads /\
     value (snd (read_all session reads) image_index) = None /\
     reads_return image_index None reads (fst (read_all session reads))).
Proof.
  intros session load. split; [intros a; split; reflexivity|]. split.
  - intros reads a Ha.
    assert (exists f : W -> V, forall w, load a w = Some (f w)) as [f Hf].
    { destruct a; [eexists; intros w; reflexivity ..|congruence]. }
    pose proof (read_all_memo f reads session a Hf) as H.
    change (value (session a)) with (@None V) in H.
    change (calls (session a)) with 0%nat in H.
    cbv iota in H.
    destruct (first_read a reads) as [w0|].
    + destruct H as (Hv & Hc & Hr). split; [exact Hc|].
      intros w [= <-]. rewrite Hf. repeat split; try assumption.
      discriminate.
    + destruct H as [-> _]. split; [reflexivity|]. discriminate.
  - intros reads.
    destruct (read_all_reload reads session image_index
                (fun w => eq_refl) eq_refl) as (Hv & Hc & Hr).
    repeat split; assumption.
Qed.

(** Reading [image_index] twice runs its loader twice, while the two
    reads of [trial_response_df] run its loader once. *)
Lemma image_index_read_twice :
  let session :=
    init (fun w => w + 10)%nat (fun w => w + 20)%nat (fun w => w + 30)%nat in
  let reads := [(image_index, 1%nat); (trial_response_df, 2%nat);
                (image_index, 3%nat); (trial_response_df, 4%nat)] in
  fst (read_all session reads) = [None; Some 12%nat; None; Some 12%nat] /\
  calls (snd (read_all session reads) image_index) = 2%nat /\
  calls (snd (read_all session reads) trial_response_df) = 1%nat.
Proof.
  intros session reads.
  destruct (image_index_reloaded_at_every_read nat nat
              (fun w => w + 10)%nat (fun w => w + 20)%nat
              (fun w => w + 30)%nat) as (_ & Hmemo & Hreload).
  split; [reflexivity|]. split.
  - apply (Hreload reads).
  - apply (Hmemo reads trial_response_df). discriminate.
Defined.

End SessionSpec.

(** * Part III: further properties of the code *)

(** ** More on [get_trials] *)

Module TrialsMore.
Import F64 F64Facts Trials TrialsFacts Samples.

(** NaN is not [<=] anything. *)
Lemma nan_not_leb a x : is_nan a = true -> (a <=? x) = false.
Proof.
  intros Ha. apply is_nan_spec in Ha.
  rewrite FloatAxioms.leb_spec. unfold SFleb. rewrite Ha. reflexivity.
Qed.

(** X1.  [get_trials] raises [IndexError] exactly when the stimulus
    presentation table is empty, whatever the trials are.  On a
    non-empty table it raises [ValueError] when no trial has a stop time
    not greater than the last start time (line 249 cannot store the
    result of [apply] on a table without rows), and otherwise returns as
    soon as the reward-rate routine gives one rate per latency. *)
Theorem get_trials_returns trials0 sp reward_rate_of filter_aborted_trials :
  (get_trials trials0 sp reward_rate_of filter_aborted_trials
     = inl Py.IndexError <-> sp = []) /\
  (forall last_row,
     last sp = Some last_row ->
     (covered_trials (flash_start_time last_row) trials0 = [] ->
      get_trials trials0 sp reward_rate_of filter_aborted_trials
        = inl Py.ValueError) /\
     (covered_trials (flash_start_time last_row) trials0 <> [] ->
      (forall latencies starts window trial_window initial_trials,
         length (reward_rate_of latencies starts window trial_window
                   initial_trials) = length latencies) ->
      exists out,
        get_trials trials0 sp reward_rate_of filter_aborted_trials
          = inr out /\
        length out =
          length (kept filter_aborted_trials (flash_start_time last_row)
                    trials0))).
Proof.
  split; [split|].
  - intros H. apply get_trials_inl in H.
    destruct H as [[_ H]|H]; [exact H|discriminate].
  - intros ->. reflexivity.
  - intros last_row Hlast. split.
    + intros Hc. rewrite get_trials_eq, Hlast, Hc. reflexivity.
    + intros Hc Hlen.
      destruct (get_trials_total trials0 sp reward_rate_of
                  filter_aborted_trials last_row Hlast Hc Hlen)
        as [out Hout].
      exists out. split; [exact Hout|].
      apply get_trials_inr in Hout.
      destruct Hout as (last_row' & Hlast' & Hcols & _).
      rewrite Hlast in Hlast'. injection Hlast' as <-.
      rewrite selected_kept in Hcols.
      apply (f_equal (@length _)) in Hcols.
      rewrite !length_map in Hcols. exact Hcols.
Qed.

Lemma get_trials_returns_witness :
  (exists out,
     get_trials session_trials flashes flat_reward_rate true = inr out /\
     length out = 2%nat) /\
  get_trials [sample_trial 3 3.5 [3.75] true false false 3 4.5] flashes
    flat_reward_rate true = inl Py.ValueError.
Proof.
  destruct (get_trials_returns session_trials flashes flat_reward_rate true)
    as [_ H1].
  destruct (get_trials_returns
              [sample_trial 3 3.5 [3.75] true false false 3 4.5] flashes
              flat_reward_rate true) as [_ H2].
  split.
  - destruct (H1 (Presentation 3 3) eq_refl) as [_ H].
    destruct H as (out & Hout & Hlen).
    + vm_compute. discriminate.
    + intros. unfold flat_reward_rate. apply length_map.
    + exists out. split; [exact Hout|]. rewrite Hlen. reflexivity.
  - destruct (H2 (Presentation 3 3) eq_refl) as [H _].
    apply H. vm_compute. reflexivity.
Defined.

(** Two rows agree on every column that the patch does not rewrite. *)
Definition same_outside_patch (r : @trial_row float)
    (o : @trial_row (option float)) : Prop :=
  trials_id r = trials_id o /\
  initial_image_name r = initial_image_name o /\
  change_image_name r = change_image_name o /\
  lick_times r = lick_times o /\
  reward_time r = reward_time o /\
  go r = go o /\ catch r = catch o /\ hit r = hit o /\ miss r = miss o /\
  false_alarm r = false_alarm o /\ correct_reject r = correct_reject o /\
  aborted r = aborted o /\ auto_rewarded r = auto_rewarded o /\
  reward_volume r = reward_volume o /\
  start_time r = start_time o /\ stop_time r = stop_time o /\
  trial_length r = trial_length o.

(** X2.  The returned rows are, in their original order, the input
    trials that pass the two filters, and each one is its input trial on
    every column but [change_time] and [response_latency]. *)
Theorem get_trials_rows_preserved trials0 sp reward_rate_of
    filter_aborted_trials out :
  get_trials trials0 sp reward_rate_of filter_aborted_trials = inr out ->
  exists last_row,
    last sp = Some last_row /\
    Forall2 (fun r (o : returned_trial) => same_outside_patch r o)
      (kept filter_aborted_trials (flash_start_time last_row) trials0) out.
Proof.
  intros H. apply get_trials_inr in H.
  destruct H as (last_row & Hlast & Hcols & _).
  exists last_row. split; [exact Hlast|].
  rewrite selected_kept in Hcols.
  revert out Hcols.
  induction (kept filter_aborted_trials (flash_start_time last_row) trials0)
    as [|r rs IH]; intros [|o out]; simpl; try discriminate.
  - constructor.
  - intros [= Ho Hout]. constructor; [|apply IH, Hout].
    rewrite Ho. unfold same_outside_patch. simpl. tauto.
Qed.

Lemma get_trials_rows_preserved_witness :
  exists last_row,
    last flashes = Some last_row /\
    Forall2 (fun r (o : returned_trial) => same_outside_patch r o)
      (kept true (flash_start_time last_row) session_trials)
      session_returned.
Proof.
  apply (get_trials_rows_preserved session_trials flashes flat_reward_rate
           true).
  vm_compute. reflexivity.
Defined.

(** X3.  With [filter_aborted_trials] set, no returned trial is
    aborted. *)
Theorem get_trials_filters_aborted trials0 sp reward_rate_of out :
  get_trials trials0 sp reward_rate_of true = inr out ->
  Forall (fun o : returned_trial => aborted o = false) out.
Proof.
  intros H. apply get_trials_inr in H.
  destruct H as (last_row & _ & Hcols & _).
  apply Forall_forall. intros o Ho. apply list_elem_of_In in Ho.
  assert (In (columns o) (map columns out)) as Hin by (apply in_map, Ho).
  rewrite Hcols in Hin. unfold selected in Hin.
  apply filter_In in Hin. destruct Hin as [_ Hin].
  apply negb_true_iff in Hin. exact Hin.
Qed.

Lemma get_trials_filters_aborted_witness :
  Forall (fun o : returned_trial => aborted o = false) session_returned.
Proof.
  apply (get_trials_filters_aborted session_trials flashes flat_reward_rate).
  vm_compute. reflexivity.
Defined.

(** X4.  The patch never moves a change time backwards and never
    invents one: a returned change time is a number [>=] the original
    change time, and a trial whose original change time is NaN is
    returned with a null change time. *)
Theorem get_trials_change_time_bounds trials0 sp reward_rate_of
    filter_aborted_trials out :
  get_trials trials0 sp reward_rate_of filter_aborted_trials = inr out ->
  exists last_row,
    last sp = Some last_row /\
    Forall2 (fun r (o : returned_trial) =>
               (forall v, change_time o = Some v ->
                          is_nan v = false /\ ge v (change_time r) = true) /\
               (is_nan (change_time r) = true -> change_time o = None))
      (kept filter_aborted_trials (flash_start_time last_row) trials0) out.
Proof.
  intros H. apply get_trials_inr in H.
  destruct H as (last_row & Hlast & Hcols & _).
  exists last_row. split; [exact Hlast|].
  rewrite selected_kept in Hcols.
  revert out Hcols.
  induction (kept filter_aborted_trials (flash_start_time last_row) trials0)
    as [|r rs IH]; intros [|o out]; simpl; try discriminate.
  - constructor.
  - intros [= Ho Hout]. constructor; [|apply IH, Hout].
    rewrite Ho. simpl.
    pose proof (get_next_flash_first sp (change_time r)) as F.
    split.
    + intros v Hv. rewrite Hv in F.
      destruct F as (_ & _ & _ & _ & _ & Hge & _).
      split; [|exact Hge]. eapply leb_not_nan_r. exact Hge.
    + intros Hnan.
      destruct (get_next_flash sp (change_time r)) as [v|]; [|reflexivity].
      destruct F as (_ & _ & _ & _ & _ & Hge & _).
      unfold ge in Hge. rewrite (nan_not_leb _ _ Hnan) in Hge.
      discriminate.
Qed.

Lemma get_trials_change_time_bounds_witness :
  exists last_row,
    last flashes = Some last_row /\
    Forall2 (fun r (o : returned_trial) =>
               (forall v, change_time o = Some v ->
                          is_nan v = false /\ ge v (change_time r) = true) /\
               (is_nan (change_time r) = true -> change_time o = None))
      (kept false (flash_start_time last_row) session_trials)
      (match get_trials session_trials flashes flat_reward_rate false with
       | inr out => out
       | inl _ => []
       end).
Proof.
  apply (get_trials_change_time_bounds session_trials flashes
           flat_reward_rate false).
  vm_compute. reflexivity.
Defined.

(** X5.  The [reward_rate] column is what [calculate_reward_rate]
    returns for the recomputed response latencies and the start times of
    the returned rows, with [window=.75], [trial_window=25] and
    [initial_trials=10]. *)
Theorem get_trials_reward_rate trials0 sp reward_rate_of
    filter_aborted_trials out :
  get_trials trials0 sp reward_rate_of filter_aborted_trials = inr out ->
  map reward_rate out =
    reward_rate_of
      (map (fun o : returned_trial => response_latency o) out)
      (map (fun o : returned_trial => start_time o) out) 0.75 25%Z 10%Z.
Proof.
  intros H. apply get_trials_rates in H.
  destruct H as (last_row & _ & _ & Hcols & Hrates).
  rewrite Hrates, <- Hcols, !map_map. reflexivity.
Qed.

Lemma get_trials_reward_rate_witness :
  map reward_rate session_returned = [infinity; infinity].
Proof.
  rewrite (get_trials_reward_rate session_trials flashes flat_reward_rate
             true session_returned) by (vm_compute; reflexivity).
  vm_compute. reflexivity.
Defined.

End TrialsMore.

(** ** Paths, sessions and containers *)

Module CatalogSpec.
Import Py Catalog.

Lemma length_append (a b : string) :
  String.length (a +:+ b) = (String.length a + String.length b)%nat.
Proof. induction a as [|c a IH]; simpl; [reflexivity|]. rewrite IH. reflexivity. Qed.

Lemma append_inv_tail (a b t : string) : a +:+ t = b +:+ t -> a = b.
Proof.
  revert b. induction a as [|c a IH]; intros [|d b] H.
  - reflexivity.
  - apply (f_equal String.length) in H.
    rewrite !length_append in H. simpl in H. lia.
  - apply (f_equal String.length) in H.
    rewrite !length_append in H. simpl in H. lia.
  - simpl in H. injection H as -> H. f_equal. apply IH, H.
Qed.

Lemma str_int_inj (m n : Z) : str_int m = str_int n -> m = n.
Proof.
  unfold str_int. intros H.
  assert (forall z, Z.to_int z <> Decimal.Pos Decimal.Nil /\
                    Z.to_int z <> Decimal.Neg Decimal.Nil) as Hnz.
  { intros [|p|p]; simpl; split; try discriminate;
      intros [= E]; exact (DecimalPos.Unsigned.to_uint_nonnil _ E). }
  apply (f_equal NilZero.int_of_string) in H.
  rewrite !NilZero.isi in H by apply Hnz.
  injection H as H. apply DecimalZ.to_int_inj, H.
Qed.

(** Joining two relative names onto one directory keeps them apart. *)
Lemma join_inj (dir a b : string) :
  Posix.startswith_sep a = false -> Posix.startswith_sep b = false ->
  Posix.join dir a = Posix.join dir b -> a = b.
Proof.
  unfold Posix.join. intros -> ->.
  destruct (String.eqb dir "" || Posix.endswith_sep dir); intros H.
  - apply String.app_inj in H. exact H.
  - apply String.app_inj in H. injection H as H. exact H.
Qed.

Lemma named_inj (dir prefix suffix : string) (m n : Z) :
  Posix.startswith_sep prefix = false -> prefix <> "" ->
  Posix.join dir (prefix +:+ str_int m +:+ suffix) =
  Posix.join dir (prefix +:+ str_int n +:+ suffix) -> m = n.
Proof.
  intros Hp Hne H. apply join_inj in H.
  - apply String.app_inj in H. apply append_inv_tail in H.
    apply str_int_inj, H.
  - destruct prefix; [congruence|exact Hp].
  - destruct prefix; [congruence|exact Hp].
Qed.

(** X6.  Within one cache, each of the four file paths determines the
    experiment: two experiments never share an NWB file, a trial
    response file, a flash response file or an extended stimulus file. *)
Theorem paths_determine_experiment (self : project_cache) (m n : Z) :
  (get_nwb_filepath self m = get_nwb_filepath self n -> m = n) /\
  (get_trial_response_df_path self m = get_trial_response_df_path self n
     -> m = n) /\
  (get_flash_response_df_path self m = get_flash_response_df_path self n
     -> m = n) /\
  (get_extended_stimulus_presentations_df self m =
     get_extended_stimulus_presentations_df self n -> m = n).
Proof.
  repeat split; intros H; eapply named_inj in H; try exact H;
    try reflexivity; discriminate.
Qed.

(** X7.  The three analysis files of a cache never collide: whatever
    the two experiments, a trial response path, a flash response path
    and an extended stimulus path are pairwise different. *)
Theorem analysis_paths_distinct (self : project_cache) (m n : Z) :
  get_trial_response_df_path self m <> get_flash_response_df_path self n /\
  get_trial_response_df_path self m <>
    get_extended_stimulus_presentations_df self n /\
  get_flash_response_df_path self m <>
    get_extended_stimulus_presentations_df self n.
Proof.
  repeat split; intros H; apply join_inj in H; try reflexivity;
    simpl in H; discriminate.
Qed.

(** The rows of one container, and among them those of one stage. *)
Definition container_rows (self : project_cache) (container : Z)
  : list manifest_row :=
  List.filter (fun row => Z.eqb (container_id row) container)
              (manifest self).

Lemma fold_sessions_lookup (self : project_cache) rows stage :
  forall acc : gmap string ExtendedNwbApi,
  fold_left
    (fun container_stages row =>
       <[stage_name row := get_session self (ophys_experiment_id row)]>
         container_stages) rows acc !! stage =
  match last (List.filter (fun row => String.eqb (stage_name row) stage)
                          rows) with
  | Some row => Some (get_session self (ophys_experiment_id row))
  | None => acc !! stage
  end.
Proof.
  induction rows as [|row rows IH]; intros acc; simpl; [reflexivity|].
  rewrite IH.
  destruct (String.eqb (stage_name row) stage) eqn:E.
  - apply String.eqb_eq in E.
    destruct (List.filter _ rows) as [|r rs] eqn:Hf.
    + simpl. rewrite E. apply lookup_insert_eq.
    + change (last (row :: r :: rs)) with (last (r :: rs)).
      destruct (last (r :: rs)) eqn:Hl; [reflexivity|].
      apply last_None in Hl. discriminate.
  - apply String.eqb_neq in E.
    destruct (last (List.filter _ rows)); [reflexivity|].
    apply lookup_insert_ne, E.
Qed.

(** X8.  [get_container_sessions] raises [KeyError] exactly when no
    manifest row belongs to the container; it raises nothing else. *)
Theorem get_container_sessions_raises (self : project_cache)
    (container : Z) :
  (get_container_sessions self container
     = inl (KeyError (str_int container)) <->
   Forall (fun row => container_id row <> container) (manifest self)) /\
  (forall e, get_container_sessions self container = inl e ->
             e = KeyError (str_int container)).
Proof.
  unfold get_container_sessions.
  assert (List.filter (fun row => Z.eqb (container_id row) container)
                      (manifest self) = [] <->
          Forall (fun row => container_id row <> container)
                 (manifest self)) as Hempty.
  { induction (manifest self) as [|row rows IH]; simpl.
    - split; [constructor|reflexivity].
    - destruct (Z.eqb_spec (container_id row) container) as [E|E].
      + split; [discriminate|]. intros H. apply Forall_cons in H. tauto.
      + rewrite IH. split.
        * intros H. constructor; assumption.
        * intros H. apply Forall_cons in H. tauto. }
  destruct (List.filter _ (manifest self)) as [|r rs].
  - split; [|intros e [= <-]; reflexivity].
    split; [intros _; apply Hempty; reflexivity|reflexivity].
  - split; [|discriminate].
    split; [discriminate|]. intros H. apply Hempty in H. discriminate.
Qed.

(** X9.  In the dict that [get_container_sessions] returns, a stage
    name maps to the session of the last manifest row of the container
    with that stage name, so a later row of the same stage replaces an
    earlier one; stage names that no row of the container carries are
    absent. *)
Theorem get_container_sessions_last_wins (self : project_cache)
    (container : Z) (container_stages : gmap string ExtendedNwbApi) :
  get_container_sessions self container = inr container_stages ->
  forall stage,
    container_stages !! stage =
    match last (List.filter
                  (fun row => String.eqb (stage_name row) stage)
                  (container_rows self container)) with
    | Some row => Some (get_session self (ophys_experiment_id row))
    | None => None
    end.
Proof.
  unfold get_container_sessions, container_rows. intros H stage.
  destruct (List.filter _ (manifest self)) as [|r rs]; [discriminate|].
  pose proof (fold_sessions_lookup self (r :: rs) stage ∅) as L.
  rewrite lookup_empty in L. injection H as <-. exact L.
Qed.

Lemma get_container_sessions_last_wins_witness :
  exists container_stages,
    get_container_sessions CatalogSamples.swdb_cache 876693136
      = inr container_stages /\
    container_stages !! "OPHYS_6_images_B" =
      Some (get_session CatalogSamples.swdb_cache 881094781) /\
    container_stages !! "OPHYS_4_images_B" =
      Some (get_session CatalogSamples.swdb_cache 878363070) /\
    container_stages !! "OPHYS_1_images_A" = None.
Proof.
  destruct (get_container_sessions CatalogSamples.swdb_cache 876693136)
    as [e|container_stages] eqn:H; [vm_compute in H; discriminate|].
  exists container_stages. split; [reflexivity|].
  pose proof (get_container_sessions_last_wins _ _ _ H) as L.
  repeat split; rewrite L; vm_compute; reflexivity.
Defined.

End CatalogSpec.

(** ** Metadata, licks, traces and the mask image *)

Module NwbMiscSpec.
Import Py Frame NwbMisc.

(** [get_metadata] on what the two superclass calls returned: the keys
    are looked at in the order stage, session type, uuid, LabTracks id. *)
Lemma get_metadata_cases (metadata task_parameters : gmap string value) :
  get_metadata (inr metadata) (inr task_parameters) =
  match task_parameters !! "stage" with
  | None => inl (KeyError "stage")
  | Some stage =>
    match metadata !! "session_type" with
    | None => inl (KeyError "session_type")
    | Some _ =>
      match metadata !! "behavior_session_uuid" with
      | None => inl (KeyError "behavior_session_uuid")
      | Some _ =>
        match metadata !! "LabTracks_ID" with
        | None => inl (KeyError "LabTracks_ID")
        | Some mouse =>
            inr (<["mouse_id" := mouse]>
                   (delete "LabTracks_ID"
                      (delete "behavior_session_uuid"
                         (delete "session_type"
                            (<["stage" := stage]> metadata)))))
        end
      end
    end
  end.
Proof.
  unfold get_metadata, NwbApi.get_task_parameters. cbn [bind ret].
  unfold getitem. rewrite !lookup_insert_ne by discriminate.
  destruct (task_parameters !! "stage") as [stage|]; cbn [bind ret raise];
    [|reflexivity].
  unfold pop at 1. rewrite lookup_insert_ne by discriminate.
  destruct (metadata !! "session_type"); cbn [bind ret raise snd];
    [|reflexivity].
  unfold pop at 1.
  rewrite lookup_delete_ne, lookup_insert_ne by discriminate.
  destruct (metadata !! "behavior_session_uuid"); cbn [bind ret raise snd];
    [|reflexivity].
  unfold pop.
  rewrite !lookup_delete_ne, lookup_insert_ne by discriminate.
  destruct (metadata !! "LabTracks_ID"); reflexivity.
Qed.

(** X10.  The metadata that [get_metadata] returns carries the stage of
    the task parameters under [stage] and the former [LabTracks_ID]
    under [mouse_id]; it has no [session_type], [behavior_session_uuid]
    or [LabTracks_ID] entry; every other entry is the superclass one. *)
Theorem get_metadata_entries (metadata task_parameters out
    : gmap string value) :
  get_metadata (inr metadata) (inr task_parameters) = inr out ->
  out !! "stage" = task_parameters !! "stage" /\
  is_Some (out !! "stage") /\
  out !! "mouse_id" = metadata !! "LabTracks_ID" /\
  is_Some (out !! "mouse_id") /\
  out !! "session_type" = None /\
  out !! "behavior_session_uuid" = None /\
  out !! "LabTracks_ID" = None /\
  forall key : string,
    key <> "stage" -> key <> "mouse_id" -> key <> "session_type" ->
    key <> "behavior_session_uuid" -> key <> "LabTracks_ID" ->
    out !! key = metadata !! key.
Proof.
  rewrite get_metadata_cases.
  destruct (task_parameters !! "stage") as [stage|]; [|discriminate].
  destruct (metadata !! "session_type"); [|discriminate].
  destruct (metadata !! "behavior_session_uuid"); [|discriminate].
  destruct (metadata !! "LabTracks_ID") as [mouse|]; [|discriminate].
  intros [= <-].
  repeat split.
  - rewrite lookup_insert_ne, !lookup_delete_ne by discriminate.
    apply lookup_insert_eq.
  - rewrite lookup_insert_ne, !lookup_delete_ne by discriminate.
    rewrite lookup_insert_eq. eexists. reflexivity.
  - apply lookup_insert_eq.
  - rewrite lookup_insert_eq. eexists. reflexivity.
  - rewrite lookup_insert_ne, !lookup_delete_ne by discriminate.
    apply lookup_delete_eq.
  - rewrite lookup_insert_ne, lookup_delete_ne by discriminate.
    apply lookup_delete_eq.
  - rewrite lookup_insert_ne by discriminate. apply lookup_delete_eq.
  - intros key H1 H2 H3 H4 H5.
    rewrite lookup_insert_ne, !lookup_delete_ne, lookup_insert_ne
      by congruence.
    reflexivity.
Qed.

Lemma get_metadata_entries_witness :
  exists out,
    get_metadata (inr MetadataSamples.nwb_metadata)
      (inr MetadataSamples.nwb_task_parameters) = inr out /\
    out !! "stage" = Some (Str "OPHYS_6_images_B") /\
    out !! "mouse_id" = Some (Int 449653) /\
    out !! "LabTracks_ID" = None /\
    out !! "ophys_frame_rate" = Some (Float 31).
Proof.
  destruct (get_metadata (inr MetadataSamples.nwb_metadata)
              (inr MetadataSamples.nwb_task_parameters))
    as [e|out] eqn:H; [vm_compute in H; discriminate|].
  exists out. split; [reflexivity|].
  destruct (get_metadata_entries _ _ _ H)
    as (Hs & _ & Hm & _ & _ & _ & Hl & Hother).
  split; [rewrite Hs; reflexivity|]. split; [rewrite Hm; reflexivity|].
  split; [exact Hl|]. rewrite Hother by discriminate. reflexivity.
Defined.

(** X11.  [get_metadata] returns exactly when the task parameters have
    a [stage] and the superclass metadata has [session_type],
    [behavior_session_uuid] and [LabTracks_ID]; otherwise it raises
    [KeyError] for the first of these four, in this order, that is
    missing. *)
Theorem get_metadata_raises (metadata task_parameters : gmap string value) :
  ((exists out, get_metadata (inr metadata) (inr task_parameters) = inr out)
   <-> is_Some (task_parameters !! "stage") /\
       is_Some (metadata !! "session_type") /\
       is_Some (metadata !! "behavior_session_uuid") /\
       is_Some (metadata !! "LabTracks_ID")) /\
  (task_parameters !! "stage" = None ->
   get_metadata (inr metadata) (inr task_parameters)
     = inl (KeyError "stage")) /\
  (is_Some (task_parameters !! "stage") ->
   metadata !! "session_type" = None ->
   get_metadata (inr metadata) (inr task_parameters)
     = inl (KeyError "session_type")) /\
  (is_Some (task_parameters !! "stage") ->
   is_Some (metadata !! "session_type") ->
   metadata !! "behavior_session_uuid" = None ->
   get_metadata (inr metadata) (inr task_parameters)
     = inl (KeyError "behavior_session_uuid")) /\
  (is_Some (task_parameters !! "stage") ->
   is_Some (metadata !! "session_type") ->
   is_Some (metadata !! "behavior_session_uuid") ->
   metadata !! "LabTracks_ID" = None ->
   get_metadata (inr metadata) (inr task_parameters)
     = inl (KeyError "LabTracks_ID")).
Proof.
  rewrite get_metadata_cases.
  destruct (task_parameters !! "stage") as [stage|],
           (metadata !! "session_type") as [st|],
           (metadata !! "behavior_session_uuid") as [uuid|],
           (metadata !! "LabTracks_ID") as [mouse|];
    (split; [split; [intros [out H]; try discriminate H;
                     repeat split; eexists; reflexivity
                    |intros (H1 & H2 & H3 & H4);
                     try (destruct H1 as [? H1]; discriminate H1);
                     try (destruct H2 as [? H2]; discriminate H2);
                     try (destruct H3 as [? H3]; discriminate H3);
                     try (destruct H4 as [? H4]; discriminate H4);
                     eexists; reflexivity]
            |repeat split; intros; try reflexivity; try discriminate;
             repeat match goal with
                    | H : is_Some None |- _ => destruct H as [? H];
                                               discriminate H
                    end]).
Qed.

(** X12.  [get_licks] never raises on its own and only relabels: the
    column [time], if present, becomes [timestamps]; the cells, their
    order and the index are the superclass ones, and a table without a
    [time] column is returned as it is. *)
Theorem get_licks_relabels (licks : DataFrame) :
  exists out,
    get_licks (inr licks) = inr out /\
    column_names out =
      map (fun name => if String.eqb name "time" then "timestamps"
                       else name) (column_names licks) /\
    map snd (columns out) = map snd (columns licks) /\
    index out = index licks /\
    index_name out = index_name licks /\
    (has_column "time" licks = false -> out = licks).
Proof.
  eexists. split; [reflexivity|].
  assert (forall name : string,
            default name (({["time" := "timestamps"]} : gmap string string)
                            !! name) =
            if String.eqb name "time" then "timestamps" else name) as Hm.
  { intros name. destruct (String.eqb_spec name "time") as [->|Hne].
    - rewrite lookup_singleton_eq. reflexivity.
    - rewrite lookup_singleton_ne by congruence. reflexivity. }
  unfold rename, column_names. cbn [columns index index_name].
  rewrite !map_map. cbn [fst snd].
  split; [apply map_ext; intros col; apply Hm|].
  split; [reflexivity|]. split; [reflexivity|]. split; [reflexivity|].
  intros Hno. destruct licks as [iname idx cols]. f_equal.
  unfold has_column, column_names in Hno. cbn [columns] in *.
  induction cols as [|[label cells] cols IH]; [reflexivity|].
  cbn [map existsb fst snd] in *.
  apply orb_false_iff in Hno. destruct Hno as [Hl Hno].
  rewrite Hm, String.eqb_sym, Hl. f_equal. apply IH, Hno.
Qed.

Lemma lookup_column_filter_other name dropped cols :
  name <> dropped ->
  lookup_column name
    (List.filter
       (fun col : string * list value =>
          negb (existsb (String.eqb (fst col)) [dropped])) cols) =
  lookup_column name cols.
Proof.
  intros Hne. induction cols as [|[label cells] cols IH]; [reflexivity|].
  cbn [List.filter existsb fst]. rewrite orb_false_r.
  destruct (String.eqb_spec label dropped) as [->|Hl]; cbn [negb].
  - simpl. destruct (String.eqb_spec dropped name); [congruence|exact IH].
  - simpl. destruct (String.eqb label name); [reflexivity|exact IH].
Qed.

(** X13.  [get_dff_traces] raises the [KeyError] of [drop],
    [KeyError("['cell_roi_id'] not found in axis")], when the superclass
    table has no [cell_roi_id] column; otherwise it returns the table
    without that column and with every other column, the column order
    and the index unchanged. *)
Theorem get_dff_traces_drops (traces : DataFrame) :
  (has_column "cell_roi_id" traces = false ->
   get_dff_traces (inr traces)
     = inl (KeyError "['cell_roi_id'] not found in axis")) /\
  (has_column "cell_roi_id" traces = true ->
   exists out,
     get_dff_traces (inr traces) = inr out /\
     has_column "cell_roi_id" out = false /\
     column_names out =
       List.filter (fun name => negb (String.eqb name "cell_roi_id"))
                   (column_names traces) /\
     index out = index traces /\
     index_name out = index_name traces /\
     forall name, name <> "cell_roi_id" ->
       lookup_column name (columns out) =
       lookup_column name (columns traces)).
Proof.
  unfold get_dff_traces, drop. cbn [bind List.filter].
  split; intros H; rewrite H; cbn [negb bind ret raise]; [reflexivity|].
  eexists. split; [reflexivity|]. cbn [columns index index_name].
  split; [|split; [|split; [reflexivity|split; [reflexivity|]]]].
  - unfold has_column, column_names. cbn [columns].
    clear H. induction (columns traces) as [|[label cells] cols IH];
      [reflexivity|].
    cbn [List.filter existsb fst]. rewrite orb_false_r.
    destruct (String.eqb label "cell_roi_id") eqn:E;
      cbn [negb map fst existsb]; [exact IH|].
    rewrite String.eqb_sym, E. exact IH.
  - unfold column_names. cbn [columns].
    clear H. induction (columns traces) as [|[label cells] cols IH];
      [reflexivity|].
    cbn [List.filter existsb fst map]. rewrite orb_false_r.
    destruct (String.eqb label "cell_roi_id"); cbn [negb map fst];
      [exact IH|]. f_equal. exact IH.
  - intros name Hne. apply lookup_column_filter_other, Hne.
Qed.

Section MaskFacts.

Variables itk_image spacing_t unit_t : Type.
Variable deserialize : itk_image -> Image spacing_t unit_t.
Variable serialize :
  list (list float) -> spacing_t -> unit_t -> itk_image.

(** What line 347 does to one pixel. *)
Definition binarized (x y : float) : Prop :=
  (F64.gt x 0 = true /\ y = 1) \/ (F64.gt x 0 = false /\ y = x).

Lemma binarize_pixels pixels :
  Forall2 (Forall2 binarized) pixels (binarize pixels).
Proof.
  unfold binarize.
  induction pixels as [|row rows IH]; constructor; [|exact IH].
  induction row as [|x xs IHx]; constructor; [|exact IHx].
  unfold binarized. destruct (F64.gt x 0); auto.
Qed.

Lemma binarize_idempotent pixels :
  binarize (binarize pixels) = binarize pixels.
Proof.
  unfold binarize. rewrite map_map. apply map_ext. intros row.
  rewrite map_map. apply map_ext. intros x.
  destruct (F64.gt x 0) eqn:E; [reflexivity|]. rewrite E. reflexivity.
Qed.

(** X14.  When [ImageApi.deserialize] undoes [ImageApi.serialize], the
    image returned by [get_segmentation_mask_image] keeps the spacing,
    the unit and the shape of the superclass image; each pixel that was
    [> 0] is 1 and every other pixel (zero, negative or NaN) is
    unchanged; and binarizing the result again changes nothing. *)
Theorem get_segmentation_mask_image_binarizes (mask : itk_image) :
  (forall pixels s u,
     deserialize (serialize pixels s u) = mkImage pixels s u) ->
  let out :=
    deserialize (get_segmentation_mask_image deserialize serialize mask) in
  spacing out = spacing (deserialize mask) /\
  unit out = unit (deserialize mask) /\
  Forall2 (Forall2 binarized) (data (deserialize mask)) (data out) /\
  get_segmentation_mask_image deserialize serialize
    (get_segmentation_mask_image deserialize serialize mask) =
  get_segmentation_mask_image deserialize serialize mask.
Proof.
  intros Hround out. subst out.
  unfold get_segmentation_mask_image. cbn [data spacing unit].
  rewrite !Hround. cbn [data spacing unit].
  split; [reflexivity|]. split; [reflexivity|].
  split; [apply binarize_pixels|].
  rewrite binarize_idempotent. reflexivity.
Qed.

End MaskFacts.

(** A 2 x 3 mask stored as it is. *)
Lemma get_segmentation_mask_image_binarizes_witness :
  let mask := mkImage [[0.25; 0; nan]; [-1; 1; 0.5]] (1%nat, 1%nat) "mm" in
  let out := get_segmentation_mask_image (fun image => image) mkImage mask in
  data out = [[1; 0; nan]; [-1; 1; 1]] /\
  spacing out = (1%nat, 1%nat) /\
  get_segmentation_mask_image (fun image => image) mkImage out = out.
Proof.
  intros mask out.
  destruct (get_segmentation_mask_image_binarizes
              (Image (nat * nat) string) (nat * nat)%type string
              (fun image => image) mkImage mask (fun _ _ _ => eq_refl))
    as (Hs & _ & _ & Hidem).
  split; [vm_compute; reflexivity|]. split; [exact Hs|exact Hidem].
Defined.

End NwbMiscSpec.

(** ** More on the constructor of [BehaviorProjectCache] *)

Module CacheMore.
Import Py Frame Cache CacheSamples.

Lemma select_inr names cols out :
  select names cols = Some out ->
  map fst out = names /\
  forall name, In name names ->
    lookup_column name out = lookup_column name cols.
Proof.
  revert out. induction names as [|n names IH]; intros out; simpl.
  - intros [= <-]. split; [reflexivity|]. intros name [].
  - destruct (lookup_column n cols) as [cells|] eqn:Hn; [|discriminate].
    destruct (select names cols) as [tail|]; [|discriminate].
    intros [= <-]. destruct (IH tail eq_refl) as [Hnames Hlook].
    split; [simpl; f_equal; exact Hnames|].
    intros name Hin. simpl.
    destruct (String.eqb_spec n name) as [->|Hne]; [symmetry; exact Hn|].
    destruct Hin as [Hin|Hin]; [congruence|]. apply Hlook, Hin.
Qed.

Section Constructor.

Variable json_load : string -> result value.
Variable read_csv : string -> result DataFrame.

(** What a successful run of lines 61-75 has read. *)
Lemma init_manifest_inr cache_paths w m n a w1 :
  init_manifest read_csv cache_paths w = (inr (m, n, a), w1) ->
  exists path text table,
    cache_paths !! "manifest_path" = Some (Str path) /\
    files w !! path = Some text /\
    read_csv text = inr table /\
    getitem_columns manifest_columns table = inr m /\
    cache_paths !! "nwb_base_dir" = Some n /\
    cache_paths !! "analysis_files_base_dir" = Some a /\
    w1 = tried path w.
Proof.
  unfold init_manifest, io_bind, lift, getitem.
  destruct (cache_paths !! "manifest_path") as [p|]; cbn [ret raise];
    [|discriminate].
  unfold csv_reader.
  destruct p as [| | | |path| |]; try (unfold io_raise; discriminate).
  unfold io_bind, open_, lift.
  destruct (files w !! path) as [text|] eqn:Hfile; [|discriminate].
  destruct (read_csv text) as [e|table] eqn:Hcsv; [discriminate|].
  destruct (getitem_columns manifest_columns table) as [e|m'] eqn:Hsel;
    [discriminate|].
  destruct (cache_paths !! "nwb_base_dir") as [n'|]; cbn [ret raise];
    [|discriminate].
  destruct (cache_paths !! "analysis_files_base_dir") as [a'|];
    cbn [ret raise]; [|discriminate].
  unfold io_ret. intros [= <- <- <- <-].
  exists path, text, table. repeat split; assumption.
Qed.

(** Lines 61-75 print nothing, whatever they return. *)
Lemma init_manifest_quiet cache_paths w :
  stdout (snd (init_manifest read_csv cache_paths w)) = stdout w.
Proof.
  unfold init_manifest, io_bind, lift, getitem.
  destruct (cache_paths !! "manifest_path") as [p|]; cbn [ret raise];
    [|reflexivity].
  unfold csv_reader.
  destruct p as [| | | |path| |]; try reflexivity.
  unfold io_bind, open_, lift.
  destruct (files w !! path) as [text|]; [|reflexivity].
  destruct (read_csv text) as [e|table]; [reflexivity|].
  destruct (getitem_columns manifest_columns table) as [e|m'];
    [reflexivity|].
  destruct (cache_paths !! "nwb_base_dir") as [n'|]; cbn [ret raise];
    [|reflexivity].
  destruct (cache_paths !! "analysis_files_base_dir") as [a'|];
    reflexivity.
Qed.

(** X15.  The manifest of a constructed cache has exactly the ten
    listed columns, in the listed order, with the cells and the index
    the CSV file gave them; other columns of the file are dropped.  The
    two directory attributes are the entries of [cache_paths]. *)
Theorem init_manifest_columns cache_paths w cache w' :
  init json_load read_csv cache_paths w = (inr cache, w') ->
  column_names (manifest cache) = manifest_columns /\
  cache_paths !! "nwb_base_dir" = Some (nwb_base_dir cache) /\
  cache_paths !! "analysis_files_base_dir" =
    Some (analysis_files_base_dir cache) /\
  exists path text table,
    cache_paths !! "manifest_path" = Some (Str path) /\
    files w !! path = Some text /\
    read_csv text = inr table /\
    index (manifest cache) = index table /\
    forall name, In name manifest_columns ->
      lookup_column name (columns (manifest cache)) =
      lookup_column name (columns table).
Proof.
  unfold init. unfold io_bind at 1.
  destruct (init_manifest read_csv cache_paths w) as [[e|[[m n] a]] w1]
    eqn:Hm; [discriminate|].
  apply init_manifest_inr in Hm.
  destruct Hm as (path & text & table & Hp & Hf & Hcsv & Hsel & Hn & Ha & _).
  intros H.
  assert (manifest cache = m /\ nwb_base_dir cache = n /\
          analysis_files_base_dir cache = a) as (-> & -> & ->).
  { destruct (cache_paths !! "analysis_files_metadata_path") as [p|].
    - unfold io_bind, io_ret in H.
      destruct p as [| | | |p| |];
        try (unfold io_raise in H; discriminate H).
      destruct (get_analysis_files_metadata json_load p w1)
        as [[e|md] w2]; [discriminate|].
      injection H as <- _. repeat split.
    - unfold io_bind, print, io_ret in H. injection H as <- _.
      repeat split. }
  unfold getitem_columns in Hsel.
  destruct (select manifest_columns (columns table)) as [cols|] eqn:Hs;
    [|discriminate].
  cbn [bind ret] in Hsel. injection Hsel as <-.
  apply select_inr in Hs. destruct Hs as [Hnames Hlook].
  split; [exact Hnames|]. split; [exact Hn|]. split; [exact Ha|].
  exists path, text, table. repeat split; assumption.
Qed.

(** X16.  When [cache_paths] names a metadata file and lines 61-75
    succeed, the constructor fails with the [FileNotFoundError] of that
    file if it is missing, and otherwise stores the parsed document (or
    raises what the parser raises); in no case does it print. *)
Theorem init_with_metadata_path cache_paths w path m n a w1 :
  cache_paths !! "analysis_files_metadata_path" = Some (Str path) ->
  init_manifest read_csv cache_paths w = (inr (m, n, a), w1) ->
  init json_load read_csv cache_paths w =
    match files w !! path with
    | None => (inl (FileNotFoundError path), tried path w1)
    | Some text =>
        match json_load text with
        | inl e => (inl e, tried path w1)
        | inr metadata => (inr (mkCache m n a metadata), tried path w1)
        end
    end /\
  stdout (snd (init json_load read_csv cache_paths w)) = stdout w.
Proof.
  intros Hkey Hm.
  assert (files w1 = files w /\ stdout w1 = stdout w) as [Hfiles Hout].
  { apply init_manifest_inr in Hm.
    destruct Hm as (p & _ & _ & _ & _ & _ & _ & _ & _ & ->).
    split; reflexivity. }
  assert (init json_load read_csv cache_paths w =
          match files w !! path with
          | None => (inl (FileNotFoundError path), tried path w1)
          | Some text =>
              match json_load text with
              | inl e => (inl e, tried path w1)
              | inr metadata => (inr (mkCache m n a metadata), tried path w1)
              end
          end) as E.
  { unfold init. unfold io_bind at 1. rewrite Hm, Hkey.
    unfold io_bind, get_analysis_files_metadata, io_bind, open_, lift,
      io_ret.
    rewrite Hfiles. destruct (files w !! path) as [text|]; [|reflexivity].
    destruct (json_load text); reflexivity. }
  split; [exact E|]. rewrite E.
  destruct (files w !! path) as [text|]; [|exact Hout].
  destruct (json_load text); exact Hout.
Qed.

(** X17.  The constructor prints the warning once, and only when it
    returns a cache for a [cache_paths] without
    [analysis_files_metadata_path]; in every other case, failures
    included, it prints nothing. *)
Theorem init_prints cache_paths w :
  stdout (snd (init json_load read_csv cache_paths w)) =
    stdout w ++
    match fst (init json_load read_csv cache_paths w),
          cache_paths !! "analysis_files_metadata_path" with
    | inr _, None => [warning]
    | _, _ => []
    end.
Proof.
  pose proof (init_manifest_quiet cache_paths w) as Hq.
  unfold init.
  assert (forall (k : DataFrame * value * value -> IO BehaviorProjectCache),
            io_bind (init_manifest read_csv cache_paths) k w =
            match init_manifest read_csv cache_paths w with
            | (inl e, w') => (inl e, w')
            | (inr x, w') => k x w'
            end) as Hb by reflexivity.
  rewrite !Hb. clear Hb.
  destruct (init_manifest read_csv cache_paths w) as [[e|[[m n] a]] w1];
    cbn [fst snd] in *.
  - rewrite Hq, app_nil_r. reflexivity.
  - destruct (cache_paths !! "analysis_files_metadata_path") as [p|].
    + assert (forall r w2,
                match p with
                | Str path => get_analysis_files_metadata json_load path
                | Int _ | Bool _ => io_raise OSError
                | _ => io_raise TypeError
                end w1 = (r, w2) -> stdout w2 = stdout w1) as Hmd.
      { intros r w2.
        destruct p as [| | | |path| |];
          try (unfold io_raise; intros [= _ <-]; reflexivity).
        unfold get_analysis_files_metadata, io_bind, open_, lift, io_ret.
        destruct (files w1 !! path) as [text|];
          [destruct (json_load text)|]; intros [= _ <-]; reflexivity. }
      unfold io_bind, io_ret.
      set (load := match p with
                   | Str path => get_analysis_files_metadata json_load path
                   | Int _ | Bool _ => io_raise OSError
                   | _ => io_raise TypeError
                   end) in *.
      destruct (load w1) as [[e|md] w2]; cbn [fst snd];
        rewrite (Hmd _ _ eq_refl), Hq, app_nil_r; reflexivity.
    + unfold io_bind, print, io_ret. cbn [fst snd stdout].
      rewrite Hq. reflexivity.
Qed.

End Constructor.

Lemma init_manifest_columns_witness :
  exists cache w',
    init parse_json parse_csv
      {["manifest_path" := Str "manifest.csv";
        "nwb_base_dir" := Str "nwb_files";
        "analysis_files_base_dir" := Str "analysis_files"]} disk
      = (inr cache, w') /\
    column_names (manifest cache) = manifest_columns /\
    length (columns manifest_table) = 11%nat.
Proof.
  destruct (init parse_json parse_csv
              {["manifest_path" := Str "manifest.csv";
                "nwb_base_dir" := Str "nwb_files";
                "analysis_files_base_dir" := Str "analysis_files"]} disk)
    as [[e|cache] w'] eqn:H; [vm_compute in H; discriminate|].
  exists cache, w'. split; [reflexivity|].
  split; [|reflexivity].
  apply (init_manifest_columns parse_json parse_csv _ _ _ _ H).
Defined.

Lemma init_with_metadata_path_witness :
  fst (init parse_json parse_csv
         {["manifest_path" := Str "manifest.csv";
           "nwb_base_dir" := Str "nwb_files";
           "analysis_files_base_dir" := Str "analysis_files";
           "analysis_files_metadata_path" := Str "metadata.json"]} disk)
    = inl (FileNotFoundError "metadata.json").
Proof.
  destruct (init_manifest parse_csv
              {["manifest_path" := Str "manifest.csv";
                "nwb_base_dir" := Str "nwb_files";
                "analysis_files_base_dir" := Str "analysis_files";
                "analysis_files_metadata_path" := Str "metadata.json"]}
              disk) as [[e|[[m n] a]] w1] eqn:Hm;
    [vm_compute in Hm; discriminate|].
  edestruct (init_with_metadata_path parse_json parse_csv) as [E _].
  2: exact Hm.
  1: vm_compute; reflexivity.
  rewrite E. vm_compute. reflexivity.
Defined.

End CacheMore.

(** ** More on [get_stimulus_presentations] *)

Module NwbApiMore.
Import Py Frame NwbApi TableSamples.



Lemma has_column_kept name dropped cols :
  name <> dropped ->
  existsb (String.eqb name)
    (map fst
       (List.filter
          (fun col : string * list value =>
             negb (existsb (String.eqb (fst col)) [dropped])) cols)) =
  existsb (String.eqb name) (map fst cols).
Proof.
  intros Hne. induction cols as [|[label cells] cols IH]; [reflexivity|].
  cbn [List.filter existsb fst map]. rewrite orb_false_r.
  destruct (String.eqb_spec label dropped) as [->|Hl]; cbn [negb].
  - destruct (String.eqb_spec name dropped); [congruence|]. exact IH.
  - cbn [map fst existsb]. f_equal. exact IH.
Qed.

(** X19.  Two ways [get_stimulus_presentations] fails once both tables
    are read: an extended table without an [omitted] column raises the
    [KeyError] of [drop], [KeyError("['omitted'] not found in axis")];
    an extended table that shares a column other than [omitted] with
    the superclass table makes the join raise [ValueError]. *)
Theorem get_stimulus_presentations_raises super_parameters
    (base extended : DataFrame) read_hdf path :
  read_hdf path = inr extended ->
  (has_column "omitted" extended = false ->
   get_stimulus_presentations super_parameters (inr base) read_hdf path
     = inl (KeyError "['omitted'] not found in axis")) /\
  (has_column "omitted" extended = true ->
   (exists name, name <> "omitted" /\ has_column name base = true /\
                 has_column name extended = true) ->
   get_stimulus_presentations super_parameters (inr base) read_hdf path
     = inl ValueError).
Proof.
  intros Hread.
  unfold get_stimulus_presentations, get_extended_stimulus_presentations_df.
  cbn [bind]. rewrite Hread. cbn [bind]. unfold drop.
  cbn [List.filter]. split.
  - intros ->. reflexivity.
  - intros -> (name & Hne & Hbase & Hext). cbn [negb bind ret].
    unfold join.
    match goal with |- context [existsb ?f (column_names base)] =>
      assert (existsb f (column_names base) = true) as ->
    end; [|reflexivity].
    apply existsb_exists.
    unfold has_column in Hbase. apply existsb_exists in Hbase.
    destruct Hbase as (label & Hin & Hl). apply String.eqb_eq in Hl.
    subst label. exists name. split; [exact Hin|].
    unfold has_column, column_names. cbn [columns].
    rewrite has_column_kept by exact Hne. exact Hext.
Qed.

Lemma get_stimulus_presentations_raises_witness :
  get_stimulus_presentations (inr task_parameters)
    (inr base_presentations)
    (fun _ => inr (mkDataFrame None [0; 1]%Z
                     [("omitted", [Bool false; Bool false]);
                      ("duration", [Float 0.25; Float 0.25])]))
    "extended.h5" = inl ValueError.
Proof.
  eapply (get_stimulus_presentations_raises (inr task_parameters)
            base_presentations).
  - reflexivity.
  - reflexivity.
  - exists "duration". repeat split. discriminate.
Defined.

End NwbApiMore.
